(** * cloudflare-go, workers.go: script upload, routing and route listing

    A shallow embedding of [workers.go].  Go strings and byte slices are
    byte strings ([string]); Go maps are [gmap]; a Go function returning
    [(value, error)] returns a pair whose second component is an
    [option error] ([None] is Go's [nil] error).

    What lies outside the file is a parameter of the model:
    - the HTTP transport ([makeRequest], [makeRequestWithHeaders]) answers
      every request through [roundTrip], and each request issued is appended
      to a log, so that "no request was made" can be stated;
    - [json.Unmarshal] is a family of decoders ([JSONUnmarshal]);
    - [json.Marshal] is [json_Marshal], applied to a JSON value;
    - the boundary drawn by [multipart.NewWriter] and the order in which a
      [range] visits the keys of a map are inputs of the functions that
      depend on them. *)

From Stdlib Require Import Ascii String.
From stdpp Require Import gmap strings list fin_maps pretty.
From Equations Require Import Equations.

Open Scope string_scope.

(** ** Byte strings *)

Definition dquote : ascii := "034"%char.
Definition CRLF : string := String "013"%char (String "010"%char "").

(** [strings.Repeat(s, n)] *)
Fixpoint Repeat (s : string) (n : nat) : string :=
  match n with
  | O => ""
  | S n' => s +:+ Repeat s n'
  end.

(** [strings.ContainsAny(s, chars)] *)
Fixpoint IndexByte (chars : string) (c : ascii) : bool :=
  match chars with
  | EmptyString => false
  | String d rest => if decide (c = d) then true else IndexByte rest c
  end.

Fixpoint ContainsAny (s chars : string) : bool :=
  match s with
  | EmptyString => false
  | String c rest => IndexByte chars c || ContainsAny rest chars
  end.

(** ** Errors ([errors.New], [errors.Wrap] of github.com/pkg/errors) *)

Inductive error : Type :=
| errors_New (msg : string)
| errors_Wrap (cause : error) (msg : string).

#[global] Instance error_eq_dec : EqDecision error.
Proof. solve_decision. Defined.

(** What a Go call leaves behind: it returns, or the goroutine panics. *)
Inductive go_result (A : Type) : Type :=
| Returns (a : A)
| Panics.
Arguments Returns {A} a.
Arguments Panics {A}.

(** ** JSON values

    A [json.RawMessage] holds an encoded JSON value; it is modelled by the
    value it encodes, and the [nil] message by [JNull]. *)

#[warnings="-register-all"] Inductive json : Type :=
| JNull
| JBool (b : bool)
| JNumber (n : Z)
| JString (s : string)
| JArray (items : list json)
| JObject (fields : list (string * json)).

Definition RawMessage : Type := json.

(** A struct field tagged [omitempty] is left out when it is empty. *)
Definition omitempty (key value : string) : list (string * json) :=
  if decide (value = "") then [] else [(key, JString value)].


(** ** net/textproto: MIME headers *)

Definition is_lower (c : ascii) : bool :=
  let n := nat_of_ascii c in (97 <=? n)%nat && (n <=? 122)%nat.
Definition is_upper (c : ascii) : bool :=
  let n := nat_of_ascii c in (65 <=? n)%nat && (n <=? 90)%nat.
Definition is_digit (c : ascii) : bool :=
  let n := nat_of_ascii c in (48 <=? n)%nat && (n <=? 57)%nat.
Definition to_upper (c : ascii) : ascii :=
  if is_lower c then ascii_of_nat (nat_of_ascii c - 32) else c.
Definition to_lower (c : ascii) : ascii :=
  if is_upper c then ascii_of_nat (nat_of_ascii c + 32) else c.

(** [validHeaderFieldByte]: the token characters of RFC 7230. *)
Definition validHeaderFieldByte (c : ascii) : bool :=
  is_lower c || is_upper c || is_digit c || IndexByte "!#$%&'*+-.^_`|~" c.

Fixpoint valid_header_key (s : string) : bool :=
  match s with
  | EmptyString => true
  | String c rest => validHeaderFieldByte c && valid_header_key rest
  end.

Fixpoint canonical_from (upper : bool) (s : string) : string :=
  match s with
  | EmptyString => ""
  | String c rest =>
      String (if upper then to_upper c else to_lower c)
             (canonical_from (bool_decide (c = "-"%char)) rest)
  end.

(** [textproto.CanonicalMIMEHeaderKey]: a key with a byte that is not a
    token character is returned as it is. *)
Definition CanonicalMIMEHeaderKey (s : string) : string :=
  if valid_header_key s then canonical_from true s else s.

(** [textproto.MIMEHeader] is a [map[string][]string] written out by
    [CreatePart] in the order of its sorted keys: an association list kept
    sorted by key. *)
Definition MIMEHeader : Type := list (string * list string).

Fixpoint header_store (key : string) (vals : list string) (h : MIMEHeader) : MIMEHeader :=
  match h with
  | [] => [(key, vals)]
  | (k, v) :: rest =>
      match String.compare key k with
      | Eq => (key, vals) :: rest
      | Lt => (key, vals) :: (k, v) :: rest
      | Gt => (k, v) :: header_store key vals rest
      end
  end.

(** [h.Set(key, value)] *)
Definition MIMEHeader_Set (key value : string) (h : MIMEHeader) : MIMEHeader :=
  header_store (CanonicalMIMEHeaderKey key) [value] h.

(** ** The writer underneath: [io.Writer]

    [s_fault n] is the error returned by the [n]-th call of [Write] on the
    sink ([None]: the bytes are accepted).  A write that fails stores
    nothing. *)

Record Sink : Type := mkSink {
  s_bytes : string;
  s_calls : nat;
  s_fault : nat → option error
}.

Definition Sink_Write (d : string) (s : Sink) : Sink * option error :=
  match s_fault s (s_calls s) with
  | None => (mkSink (s_bytes s +:+ d) (S (s_calls s)) (s_fault s), None)
  | Some e => (mkSink (s_bytes s) (S (s_calls s)) (s_fault s), Some e)
  end.

Definition faulty_Buffer (fault : nat → option error) : Sink := mkSink "" 0 fault.

(** [&bytes.Buffer{}]: every [Write] succeeds. *)
Definition bytes_Buffer : Sink := faulty_Buffer (λ _, None).

(** ** mime/multipart: the writer

    A [*part] is the index of a part object in [parts]; [lastpart = None] is
    the [nil] pointer.  [NewWriter] draws a random boundary, which is an
    input here. *)

Record part : Type := mkPart {
  closed : bool;
  we : option error
}.

Record Writer : Type := mkWriter {
  w : Sink;
  boundary : string;
  lastpart : option nat;
  parts : list part
}.

Definition NewWriter (buf : Sink) (boundary : string) : Writer :=
  mkWriter buf boundary None [].

(** [p.close()]: marks the part closed and reports its write error. *)
Definition part_close (p : nat) (mw : Writer) : Writer * option error :=
  (mkWriter (w mw) (boundary mw) (lastpart mw)
            (alter (λ q, mkPart true (we q)) p (parts mw)),
   parts mw !! p ≫= we).

Definition header_line (key : string) (vals : list string) : string :=
  foldr (λ v acc, key +:+ ": " +:+ v +:+ CRLF +:+ acc) "" vals.

Fixpoint header_lines (h : MIMEHeader) : string :=
  match h with
  | [] => ""
  | (k, vs) :: rest => header_line k vs +:+ header_lines rest
  end.

(** The bytes [CreatePart] sends to the sink: the delimiter line (preceded
    by a line break unless this is the first part), the header lines and an
    empty line. *)
Definition part_prologue (first : bool) (boundary : string) (header : MIMEHeader) : string :=
  (if first then "--" +:+ boundary +:+ CRLF
   else CRLF +:+ "--" +:+ boundary +:+ CRLF)
  +:+ header_lines header +:+ CRLF.

(** [mw.CreatePart(header)] returns the part to write to ([None] is [nil],
    returned with every error) and an error. *)
Definition CreatePart (header : MIMEHeader) (mw : Writer)
  : Writer * option nat * option error :=
  let '(mw1, cerr) :=
    match lastpart mw with
    | Some p => part_close p mw
    | None => (mw, None)
    end in
  match cerr with
  | Some err => (mw1, None, Some err)
  | None =>
      let b := part_prologue (bool_decide (lastpart mw1 = None)) (boundary mw1) header in
      let '(buf, err) := Sink_Write b (w mw1) in
      match err with
      | Some err => (mkWriter buf (boundary mw1) (lastpart mw1) (parts mw1), None, Some err)
      | None =>
          let p := length (parts mw1) in
          (mkWriter buf (boundary mw1) (Some p) (parts mw1 ++ [mkPart false None]),
           Some p, None)
      end
  end.

Definition errFinishedPart : error :=
  errors_New "multipart: can't write to finished part".

(** [pw.Write(d)] on the [io.Writer] that [CreatePart] returned.  Calling a
    method on a [nil] interface value panics. *)
Definition part_Write (pw : option nat) (d : string) (mw : Writer)
  : go_result (Writer * option error) :=
  match pw with
  | None => Panics
  | Some p =>
      match parts mw !! p with
      | None => Panics
      | Some q =>
          if closed q then Returns (mw, Some errFinishedPart)
          else
            let '(buf, err) := Sink_Write d (w mw) in
            match err with
            | Some e =>
                Returns (mkWriter buf (boundary mw) (lastpart mw)
                                  (<[p := mkPart (closed q) (Some e)]> (parts mw)),
                         Some e)
            | None => Returns (mkWriter buf (boundary mw) (lastpart mw) (parts mw), None)
            end
      end
  end.

Definition closing_delimiter (boundary : string) : string :=
  CRLF +:+ "--" +:+ boundary +:+ "--" +:+ CRLF.

(** [mw.Close()] *)
Definition Close (mw : Writer) : Writer * option error :=
  let '(mw1, cerr) :=
    match lastpart mw with
    | Some p => part_close p mw
    | None => (mw, None)
    end in
  match cerr with
  | Some err => (mw1, Some err)
  | None =>
      let '(buf, err) := Sink_Write (closing_delimiter (boundary mw1)) (w mw1) in
      (mkWriter buf (boundary mw1) None (parts mw1), err)
  end.

Definition tspecials : string := "()<>@,;:\" +:+ String dquote "/[]?= ".

(** [mw.FormDataContentType()]: the boundary is quoted when it holds one of
    the special characters of RFC 2045 or a space. *)
Definition FormDataContentType (mw : Writer) : string :=
  let b := boundary mw in
  let b := if ContainsAny b tspecials
           then String dquote b +:+ String dquote "" else b in
  "multipart/form-data; boundary=" +:+ b.

(** [buf.Bytes()] of the buffer the writer was created on. *)
Definition Bytes (mw : Writer) : string := s_bytes (w mw).

(** ** Bindings

    [bindingBodyWriter] is a function that takes the multipart writer and
    returns an error: it may change the writer on the way.  [WorkerBinding] is the interface with
    the one method [serialize]; a value of the interface packs a value of an
    implementing type with its method. *)

Definition bindingBodyWriter : Type := Writer → Writer * option error.

Class Serialize (T : Type) : Type :=
  serialize : T → string → RawMessage * option bindingBodyWriter * option error.

Record WorkerBinding : Type := mkWorkerBinding {
  binding_type : Type;
  binding_impl : Serialize binding_type;
  binding_value : binding_type
}.
Arguments mkWorkerBinding {binding_type binding_impl} binding_value.

Definition WorkerBinding_serialize (b : WorkerBinding) (name : string)
  : RawMessage * option bindingBodyWriter * option error :=
  @serialize (binding_type b) (binding_impl b) (binding_value b) name.

Record WorkerInheritBinding : Type := mkWorkerInheritBinding {
  OldName : string
}.

(** [json.Marshal(meta{Name: name, Type: "inherit", OldName: b.OldName})] as
    a JSON value: the fields in the order of the struct, [old_name] left out
    when empty.  Marshalling a struct of strings does not fail. *)
Definition inherit_meta (name : string) (b : WorkerInheritBinding) : json :=
  JObject ([("name", JString name); ("type", JString "inherit")]
           ++ omitempty "old_name" (OldName b)).

#[global] Instance WorkerInheritBinding_serialize : Serialize WorkerInheritBinding :=
  λ b name, (inherit_meta name b, None, None).

Definition Inherit (oldName : string) : WorkerBinding :=
  mkWorkerBinding (mkWorkerInheritBinding oldName).

Record WorkerScriptParams : Type := mkWorkerScriptParams {
  Script : string;
  Bindings : gmap string WorkerBinding
}.

(** ** The multipart body of an upload *)

(** [encoding/json]'s [Marshal], from the JSON value to its bytes.  The
    values marshalled here are built from strings and from fragments that
    are JSON values already: [Marshal] returns no error for them. *)
Class JSONMarshal : Type := json_Marshal : json → string.

Definition hasKey (m : gmap string WorkerBinding) (key : string) : bool :=
  match m !! key with
  | Some _ => true
  | None => false
  end.

(** The loop [for hasKey(params.Bindings, scriptBodyPart) { scriptBodyPart =
    scriptBodyPart + "_" }].  Each turn makes the candidate one byte longer,
    so the number of keys at least as long as the candidate goes down. *)

Definition longer_keys (m : gmap string WorkerBinding) (s : string) : nat :=
  size (filter (λ k, (String.length s ≤ String.length k)%nat) (dom m)).

Definition inspect {A : Type} (a : A) : {b : A | a = b} := exist _ a eq_refl.

Equations? chooseScriptBodyPart (m : gmap string WorkerBinding) (scriptBodyPart : string)
  : string by wf (longer_keys m scriptBodyPart) lt :=
  chooseScriptBodyPart m scriptBodyPart with inspect (hasKey m scriptBodyPart) := {
    | exist _ true _ => chooseScriptBodyPart m (scriptBodyPart +:+ "_");
    | exist _ false _ => scriptBodyPart }.
Proof.
  assert (scriptBodyPart ∈ dom m) as Hkey.
  { apply elem_of_dom. unfold hasKey in *.
    destruct (m !! scriptBodyPart); [by eexists | done]. }
  assert (String.length (scriptBodyPart +:+ "_") = S (String.length scriptBodyPart)) as Hlen.
  { clear. induction scriptBodyPart as [|c s IH]; [done|].
    change (String c s +:+ "_") with (String c (s +:+ "_")). simpl. by rewrite IH. }
  unfold longer_keys. apply subset_size, strict_spec_alt. split.
  - intros k [Hk ?]%elem_of_filter. apply elem_of_filter. split; [lia | done].
  - intros Heq.
    assert (scriptBodyPart
              ∈ filter (λ k, (String.length scriptBodyPart ≤ String.length k)%nat) (dom m))
      as Hin by (apply elem_of_filter; split; [lia | done]).
    rewrite <- Heq in Hin. apply elem_of_filter in Hin as [Hk _]. lia.
Qed.

(** [for name, b := range m]: Go visits every entry once, in an order it
    does not specify and that changes from one loop to the next.  [order] is
    the order of one loop. *)
Definition range_map {V : Type} (order : list string) (m : gmap string V)
  : list (string * V) :=
  omap (λ k, (λ v, (k, v)) <$> m !! k) order.


(** The first loop of [formatMultipartBody]: serialize each binding, stop at
    the first error. *)
Fixpoint serialize_bindings (entries : list (string * WorkerBinding))
    (metas : list RawMessage) (bodyWriters : list (option bindingBodyWriter))
  : list RawMessage * list (option bindingBodyWriter) * option error :=
  match entries with
  | [] => (metas, bodyWriters, None)
  | (name, b) :: rest =>
      let '(bindingMeta, bodyWriter, err) := WorkerBinding_serialize b name in
      match err with
      | Some err => (metas, bodyWriters, Some err)
      | None => serialize_bindings rest (metas ++ [bindingMeta]) (bodyWriters ++ [bodyWriter])
      end
  end.

(** The last loop: call every writer that is not [nil], stop at the first
    error. *)
Fixpoint run_bodyWriters (bodyWriters : list (option bindingBodyWriter)) (mpw : Writer)
  : Writer * option error :=
  match bodyWriters with
  | [] => (mpw, None)
  | None :: rest => run_bodyWriters rest mpw
  | Some writer :: rest =>
      let '(mpw1, err) := writer mpw in
      match err with
      | Some err => (mpw1, Some err)
      | None => run_bodyWriters rest mpw1
      end
  end.

Definition form_data (name : string) : string :=
  "form-data; name=" +:+ String dquote name +:+ String dquote "".

(** The struct [metadata] as [json.Marshal] sees it. *)
Definition metadata_json (BodyPart : string) (bindings : list RawMessage) : json :=
  JObject [("body_part", JString BodyPart); ("bindings", JArray bindings)].

(** [formatMultipartBody] on the sink [buf].  The result is the triple
    (content type, body, error); a [nil] body is the empty string.  The
    deferred [mpw.Close()] runs after the result has been taken from the
    buffer and does not change it. *)
Definition formatMultipartBodyOn {marshal : JSONMarshal} (buf : Sink)
    (boundary : string) (order : list string) (params : WorkerScriptParams)
  : go_result (string * string * option error) :=
  let mpw := NewWriter buf boundary in
  let scriptBodyPart := chooseScriptBodyPart (Bindings params) "script" in
  let '(metas, bodyWriters, err) :=
    serialize_bindings (range_map order (Bindings params)) [] [] in
  match err with
  | Some err => Returns ("", "", Some err)
  | None =>
  let hdr := MIMEHeader_Set "content-type" "application/json"
               (MIMEHeader_Set "content-disposition" (form_data "metadata") []) in
  let '(mpw, pw, err) := CreatePart hdr mpw in
  match err with
  | Some err => Returns ("", "", Some err)
  | None =>
  let metaJson := json_Marshal (metadata_json scriptBodyPart metas) in
  match part_Write pw metaJson mpw with
  | Panics => Panics
  | Returns (_, Some err) => Returns ("", "", Some err)
  | Returns (mpw, None) =>
  let hdr := MIMEHeader_Set "content-type" "application/javascript"
               (MIMEHeader_Set "content-disposition" (form_data scriptBodyPart) []) in
  let '(mpw, pw, _) := CreatePart hdr mpw in
  match part_Write pw (Script params) mpw with
  | Panics => Panics
  | Returns (_, Some err) => Returns ("", "", Some err)
  | Returns (mpw, None) =>
  let '(mpw, err) := run_bodyWriters bodyWriters mpw in
  match err with
  | Some err => Returns ("", "", Some err)
  | None =>
  let '(mpw, _) := Close mpw in
  Returns (FormDataContentType mpw, Bytes mpw, None)
  end end end end end.

(** [formatMultipartBody]: the sink is a fresh [bytes.Buffer]. *)
Definition formatMultipartBody {marshal : JSONMarshal}
    (boundary : string) (order : list string) (params : WorkerScriptParams)
  : go_result (string * string * option error) :=
  formatMultipartBodyOn bytes_Buffer boundary order params.

(** ** Requests, responses and the client *)

Record WorkerRequestParams : Type := mkWorkerRequestParams {
  ZoneID : string;
  ScriptName : string
}.

Record WorkerRoute : Type := mkWorkerRoute {
  route_ID : string;
  Pattern : string;
  Enabled : bool;
  route_Script : string
}.

(** Modelled from the spec: the struct [ResponseInfo] is declared outside
    [workers.go]; an entry of the envelope's [errors] and [messages]. *)
Record ResponseInfo : Type := mkResponseInfo {
  Code : Z;
  Message : string
}.

(** Modelled from the spec: the struct [Response] is declared outside
    [workers.go]; the envelope [{result, success, errors, messages}] without
    its result. *)
Record Response : Type := mkResponse {
  Success : bool;
  Errors : list ResponseInfo;
  Messages : list ResponseInfo
}.

(** [time.Time], as nanoseconds from the zero time. *)
Definition Time : Type := Z.

Record WorkerMetaData : Type := mkWorkerMetaData {
  ID : string;
  ETAG : string;
  Size : Z;
  CreatedOn : Time;
  ModifiedOn : Time
}.

Record WorkerScript : Type := mkWorkerScript {
  script_MetaData : WorkerMetaData;
  script_Script : string
}.

Record WorkerScriptResponse : Type := mkWorkerScriptResponse {
  script_Response : Response;
  script_Result : WorkerScript
}.

Record WorkerListResponse : Type := mkWorkerListResponse {
  list_Response : Response;
  WorkerList : list WorkerMetaData
}.

Record WorkerRouteResponse : Type := mkWorkerRouteResponse {
  route_Response : Response;
  route_Result : WorkerRoute
}.

Record WorkerRoutesResponse : Type := mkWorkerRoutesResponse {
  routes_Response : Response;
  Routes : list WorkerRoute
}.

(** Zero values, [T{}]. *)
Definition Response_zero : Response := mkResponse false [] [].
Definition WorkerMetaData_zero : WorkerMetaData := mkWorkerMetaData "" "" 0 0%Z 0%Z.
Definition WorkerRoute_zero : WorkerRoute := mkWorkerRoute "" "" false "".
Definition WorkerScriptResponse_zero : WorkerScriptResponse :=
  mkWorkerScriptResponse Response_zero (mkWorkerScript WorkerMetaData_zero "").
Definition WorkerListResponse_zero : WorkerListResponse :=
  mkWorkerListResponse Response_zero [].
Definition WorkerRouteResponse_zero : WorkerRouteResponse :=
  mkWorkerRouteResponse Response_zero WorkerRoute_zero.
Definition WorkerRoutesResponse_zero : WorkerRoutesResponse :=
  mkWorkerRoutesResponse Response_zero [].

(** [r.Script = s] and [r.Success = b] through the embedded structs. *)
Definition set_Script (s : string) (r : WorkerScriptResponse) : WorkerScriptResponse :=
  mkWorkerScriptResponse (script_Response r)
    (mkWorkerScript (script_MetaData (script_Result r)) s).

Definition set_Success (b : bool) (r : WorkerScriptResponse) : WorkerScriptResponse :=
  mkWorkerScriptResponse
    (mkResponse b (Errors (script_Response r)) (Messages (script_Response r)))
    (script_Result r).

(** [route.Enabled = b] *)
Definition set_Enabled (b : bool) (route : WorkerRoute) : WorkerRoute :=
  mkWorkerRoute (route_ID route) (Pattern route) b (route_Script route).

(** Modelled from the spec: the struct [API] is declared outside
    [workers.go]; of the client's configuration only the account
    (organization) identifier is read here. *)
Record API : Type := mkAPI {
  OrganizationID : string
}.

(** The [params] argument of a request: [nil], a route to be sent as JSON,
    or bytes sent as they are. *)
Inductive Params : Type :=
| NoParams
| RouteParams (route : WorkerRoute)
| BytesParams (body : string).

Record Request : Type := mkRequest {
  req_method : string;
  req_uri : string;
  req_params : Params;
  req_headers : MIMEHeader
}.

(** Modelled from the spec: the transport behind [api.makeRequest] and
    [api.makeRequestWithHeaders] is declared outside [workers.go].  It
    answers a request with the response bytes or an error; the answer may
    depend on the requests made before. *)
Class Transport : Type := roundTrip : list Request → Request → string * option error.

(** Modelled from the spec: the stage tags [errMakeRequestError] and
    [errUnmarshalError] are constants declared outside [workers.go]. *)
Class ErrorTags : Type := mkErrorTags {
  errMakeRequestError : string;
  errUnmarshalError : string
}.

(** [json.Unmarshal(res, &r)]: the value left in [r] and the error. *)
Class JSONUnmarshal (T : Type) : Type := json_Unmarshal : string → T → T * option error.

(** An operation of the client reads and extends the log of the requests
    issued so far. *)
Definition Net (A : Type) : Type := list Request → A * list Request.

#[global] Instance Net_ret : MRet Net := λ A a log, (a, log).
#[global] Instance Net_bind : MBind Net :=
  λ A B f m log, let '(a, log1) := m log in f a log1.

Definition makeRequestWithHeaders {transport : Transport}
    (method uri : string) (params : Params) (headers : MIMEHeader)
  : Net (string * option error) :=
  λ log, let req := mkRequest method uri params headers in
         (roundTrip log req, (log ++ [req])%list).

Definition makeRequest {transport : Transport} (method uri : string) (params : Params)
  : Net (string * option error) :=
  makeRequestWithHeaders method uri params [].

Definition errOrganizationRequired : error :=
  errors_New "organization ID required for enterprise only request".

(** ** The operations of [workers.go] *)

Section Operations.
Context {transport : Transport} {tags : ErrorTags} {marshal : JSONMarshal}.
Context {decode_script : JSONUnmarshal WorkerScriptResponse}.
Context {decode_list : JSONUnmarshal WorkerListResponse}.
Context {decode_route : JSONUnmarshal WorkerRouteResponse}.
Context {decode_routes : JSONUnmarshal WorkerRoutesResponse}.

Definition deleteWorkerWithName (api : API) (scriptName : string)
  : Net (WorkerScriptResponse * option error) :=
  if decide (OrganizationID api = "") then
    mret (WorkerScriptResponse_zero, Some errOrganizationRequired)
  else
    let uri := "/accounts/" +:+ OrganizationID api +:+ "/workers/scripts/" +:+ scriptName in
    '(res, err) ← makeRequest "DELETE" uri NoParams;
    let r := WorkerScriptResponse_zero in
    match err with
    | Some err => mret (r, Some (errors_Wrap err errMakeRequestError))
    | None =>
        let '(r, err) := json_Unmarshal res r in
        match err with
        | Some err => mret (r, Some (errors_Wrap err errUnmarshalError))
        | None => mret (r, None)
        end
    end.

Definition DeleteWorker (api : API) (requestParams : WorkerRequestParams)
  : Net (WorkerScriptResponse * option error) :=
  if decide (ScriptName requestParams ≠ "") then
    deleteWorkerWithName api (ScriptName requestParams)
  else
    let uri := "/zones/" +:+ ZoneID requestParams +:+ "/workers/script" in
    '(res, err) ← makeRequest "DELETE" uri NoParams;
    let r := WorkerScriptResponse_zero in
    match err with
    | Some err => mret (r, Some (errors_Wrap err errMakeRequestError))
    | None =>
        let '(r, err) := json_Unmarshal res r in
        match err with
        | Some err => mret (r, Some (errors_Wrap err errUnmarshalError))
        | None => mret (r, None)
        end
    end.

Definition downloadWorkerWithName (api : API) (scriptName : string)
  : Net (WorkerScriptResponse * option error) :=
  if decide (OrganizationID api = "") then
    mret (WorkerScriptResponse_zero, Some errOrganizationRequired)
  else
    let uri := "/accounts/" +:+ OrganizationID api +:+ "/workers/scripts/" +:+ scriptName in
    '(res, err) ← makeRequest "GET" uri NoParams;
    let r := WorkerScriptResponse_zero in
    match err with
    | Some err => mret (r, Some (errors_Wrap err errMakeRequestError))
    | None =>
        let r := set_Script res r in
        let r := set_Success true r in
        mret (r, None)
    end.

Definition DownloadWorker (api : API) (requestParams : WorkerRequestParams)
  : Net (WorkerScriptResponse * option error) :=
  if decide (ScriptName requestParams ≠ "") then
    downloadWorkerWithName api (ScriptName requestParams)
  else
    let uri := "/zones/" +:+ ZoneID requestParams +:+ "/workers/script" in
    '(res, err) ← makeRequest "GET" uri NoParams;
    let r := WorkerScriptResponse_zero in
    match err with
    | Some err => mret (r, Some (errors_Wrap err errMakeRequestError))
    | None =>
        let r := set_Script res r in
        let r := set_Success true r in
        mret (r, None)
    end.

Definition ListWorkerScripts (api : API) : Net (WorkerListResponse * option error) :=
  if decide (OrganizationID api = "") then
    mret (WorkerListResponse_zero, Some errOrganizationRequired)
  else
    let uri := "/accounts/" +:+ OrganizationID api +:+ "/workers/scripts" in
    '(res, err) ← makeRequest "GET" uri NoParams;
    match err with
    | Some err => mret (WorkerListResponse_zero, Some (errors_Wrap err errMakeRequestError))
    | None =>
        let '(r, err) := json_Unmarshal res WorkerListResponse_zero in
        match err with
        | Some err => mret (WorkerListResponse_zero, Some (errors_Wrap err errUnmarshalError))
        | None => mret (r, None)
        end
    end.

Definition singleScriptUpload (api : API) (zoneId contentType body : string)
  : Net (WorkerScriptResponse * option error) :=
  let uri := "/zones/" +:+ zoneId +:+ "/workers/script" in
  let headers := MIMEHeader_Set "Content-Type" contentType [] in
  '(res, err) ← makeRequestWithHeaders "PUT" uri (BytesParams body) headers;
  let r := WorkerScriptResponse_zero in
  match err with
  | Some err => mret (r, Some (errors_Wrap err errMakeRequestError))
  | None =>
      let '(r, err) := json_Unmarshal res r in
      match err with
      | Some err => mret (r, Some (errors_Wrap err errUnmarshalError))
      | None => mret (r, None)
      end
  end.

Definition multiScriptUpload (api : API) (scriptName contentType body : string)
  : Net (WorkerScriptResponse * option error) :=
  if decide (OrganizationID api = "") then
    mret (WorkerScriptResponse_zero, Some errOrganizationRequired)
  else
    let uri := "/accounts/" +:+ OrganizationID api +:+ "/workers/scripts/" +:+ scriptName in
    let headers := MIMEHeader_Set "Content-Type" contentType [] in
    '(res, err) ← makeRequestWithHeaders "PUT" uri (BytesParams body) headers;
    let r := WorkerScriptResponse_zero in
    match err with
    | Some err => mret (r, Some (errors_Wrap err errMakeRequestError))
    | None =>
        let '(r, err) := json_Unmarshal res r in
        match err with
        | Some err => mret (r, Some (errors_Wrap err errUnmarshalError))
        | None => mret (r, None)
        end
    end.

Definition UploadWorker (api : API) (requestParams : WorkerRequestParams) (data : string)
  : Net (WorkerScriptResponse * option error) :=
  if decide (ScriptName requestParams ≠ "") then
    multiScriptUpload api (ScriptName requestParams) "application/javascript" data
  else
    singleScriptUpload api (ZoneID requestParams) "application/javascript" data.

(** [boundary] and [order] are what [formatMultipartBody] draws in this
    call.  A panic of [formatMultipartBody] is a panic of the call. *)
Definition UploadWorkerWithBindings (boundary : string) (order : list string)
    (api : API) (requestParams : WorkerRequestParams) (data : WorkerScriptParams)
  : Net (go_result (WorkerScriptResponse * option error)) :=
  match formatMultipartBody boundary order data with
  | Panics => mret Panics
  | Returns (contentType, body, err) =>
      match err with
      | Some err => mret (Returns (WorkerScriptResponse_zero, Some err))
      | None =>
          if decide (ScriptName requestParams ≠ "") then
            r ← multiScriptUpload api (ScriptName requestParams) contentType body;
            mret (Returns r)
          else
            r ← singleScriptUpload api (ZoneID requestParams) contentType body;
            mret (Returns r)
      end
  end.

Definition CreateWorkerRoute (api : API) (zoneID : string) (route : WorkerRoute)
  : Net (WorkerRouteResponse * option error) :=
  let check :=
    if decide (route_Script route ≠ "") then
      if decide (OrganizationID api = "") then inr errOrganizationRequired
      else inl "routes"
    else inl "filters" in
  match check with
  | inr err => mret (WorkerRouteResponse_zero, Some err)
  | inl pathComponent =>
      let uri := "/zones/" +:+ zoneID +:+ "/workers/" +:+ pathComponent in
      '(res, err) ← makeRequest "POST" uri (RouteParams route);
      match err with
      | Some err => mret (WorkerRouteResponse_zero, Some (errors_Wrap err errMakeRequestError))
      | None =>
          let '(r, err) := json_Unmarshal res WorkerRouteResponse_zero in
          match err with
          | Some err => mret (WorkerRouteResponse_zero, Some (errors_Wrap err errUnmarshalError))
          | None => mret (r, None)
          end
      end
  end.

Definition DeleteWorkerRoute (api : API) (zoneID routeID : string)
  : Net (WorkerRouteResponse * option error) :=
  let uri := "/zones/" +:+ zoneID +:+ "/workers/filters/" +:+ routeID in
  '(res, err) ← makeRequest "DELETE" uri NoParams;
  match err with
  | Some err => mret (WorkerRouteResponse_zero, Some (errors_Wrap err errMakeRequestError))
  | None =>
      let '(r, err) := json_Unmarshal res WorkerRouteResponse_zero in
      match err with
      | Some err => mret (WorkerRouteResponse_zero, Some (errors_Wrap err errUnmarshalError))
      | None => mret (r, None)
      end
  end.

(** The body of the loop over [r.Routes]. *)
Definition backfill_Enabled (route : WorkerRoute) : WorkerRoute :=
  if decide (route_Script route ≠ "") then set_Enabled true route else route.

Definition ListWorkerRoutes (api : API) (zoneID : string)
  : Net (WorkerRoutesResponse * option error) :=
  let pathComponent := if decide (OrganizationID api ≠ "") then "routes" else "filters" in
  let uri := "/zones/" +:+ zoneID +:+ "/workers/" +:+ pathComponent in
  '(res, err) ← makeRequest "GET" uri NoParams;
  match err with
  | Some err => mret (WorkerRoutesResponse_zero, Some (errors_Wrap err errMakeRequestError))
  | None =>
      let '(r, err) := json_Unmarshal res WorkerRoutesResponse_zero in
      match err with
      | Some err => mret (WorkerRoutesResponse_zero, Some (errors_Wrap err errUnmarshalError))
      | None =>
          let r := mkWorkerRoutesResponse (routes_Response r)
                     (backfill_Enabled <$> Routes r) in
          mret (r, None)
      end
  end.

Definition UpdateWorkerRoute (api : API) (zoneID routeID : string) (route : WorkerRoute)
  : Net (WorkerRouteResponse * option error) :=
  let check :=
    if decide (route_Script route ≠ "") then
      if decide (OrganizationID api = "") then inr errOrganizationRequired
      else inl "routes"
    else inl "filters" in
  match check with
  | inr err => mret (WorkerRouteResponse_zero, Some err)
  | inl pathComponent =>
      let uri := "/zones/" +:+ zoneID +:+ "/workers/" +:+ pathComponent +:+ "/" +:+ routeID in
      '(res, err) ← makeRequest "PUT" uri (RouteParams route);
      match err with
      | Some err => mret (WorkerRouteResponse_zero, Some (errors_Wrap err errMakeRequestError))
      | None =>
          let '(r, err) := json_Unmarshal res WorkerRouteResponse_zero in
          match err with
          | Some err => mret (WorkerRouteResponse_zero, Some (errors_Wrap err errUnmarshalError))
          | None => mret (r, None)
          end
      end
  end.

End Operations.

(** ** What the statements below are written with *)

(** The header that [formatMultipartBody] builds for the part [name]. *)
Definition part_header (name contentType : string) : MIMEHeader :=
  MIMEHeader_Set "content-type" contentType
    (MIMEHeader_Set "content-disposition" (form_data name) []).

(** A multipart message, part by part: what RFC 2046 calls the body of a
    multipart entity with the given boundary.  A part is its header and its
    bytes. *)
Fixpoint render_parts (first : bool) (boundary : string)
    (ps : list (MIMEHeader * string)) : string :=
  match ps with
  | [] => ""
  | (header, data) :: rest =>
      part_prologue first boundary header +:+ data +:+ render_parts false boundary rest
  end.

Definition multipart_message (boundary : string) (ps : list (MIMEHeader * string)) : string :=
  render_parts true boundary ps +:+ closing_delimiter boundary.

(** The body writer that creates one part and writes its bytes. *)
Definition write_part (header : MIMEHeader) (data : string) : bindingBodyWriter :=
  λ mpw,
    let '(mpw1, pw, err) := CreatePart header mpw in
    match err with
    | Some err => (mpw1, Some err)
    | None =>
        match part_Write pw data mpw1 with
        | Returns r => r
        | Panics => (mpw1, None)
        end
    end.

(** No write to the sink fails, and the part last created, if any, is open
    and has seen no write error. *)
Definition sound (mw : Writer) : Prop :=
  (∀ n : nat, s_fault (w mw) n = None)
  ∧ match lastpart mw with
    | None => True
    | Some p => parts mw !! p = Some (mkPart false None)
    end.

(** What [serialize] gave for an entry of the map. *)
Definition entry_meta (entry : string * WorkerBinding) : RawMessage :=
  (WorkerBinding_serialize entry.2 entry.1).1.1.
Definition entry_writer (entry : string * WorkerBinding) : option bindingBodyWriter :=
  (WorkerBinding_serialize entry.2 entry.1).1.2.
Definition entry_error (entry : string * WorkerBinding) : option error :=
  (WorkerBinding_serialize entry.2 entry.1).2.

(** The two parts that [formatMultipartBody] writes itself, for the entries
    in the order of the first loop. *)
Definition metadata_part {marshal : JSONMarshal} (params : WorkerScriptParams)
    (entries : list (string * WorkerBinding)) : MIMEHeader * string :=
  (part_header "metadata" "application/json",
   json_Marshal (metadata_json (chooseScriptBodyPart (Bindings params) "script")
                               (entry_meta <$> entries))).

Definition script_part (params : WorkerScriptParams) : MIMEHeader * string :=
  (part_header (chooseScriptBodyPart (Bindings params) "script") "application/javascript",
   Script params).

(** Each writer of [writers] writes the part at the same place of [bparts],
    and nothing else. *)
Definition write_parts (writers : list bindingBodyWriter)
    (bparts : list (MIMEHeader * string)) : Prop :=
  Forall2 (λ writer p, ∀ mpw, writer mpw = write_part p.1 p.2 mpw) writers bparts.

(** The candidates of the collision loop: "script" followed by [n] markers. *)
Definition script_name (n : nat) : string := "script" +:+ Repeat "_" n.




(** The invariant that [ListWorkerRoutes] establishes on a route. *)
Definition backfilled (route : WorkerRoute) : Prop :=
  route_Script route ≠ "" → Enabled route = true.

(** The bindings of that test: [b1] inherits with no old name, [b2] from
    "old_binding_name". *)
Definition test_bindings : gmap string WorkerBinding :=
  <["b2" := Inherit "old_binding_name"]> (<["b1" := Inherit ""]> ∅).

(** ** Collaborators to run the model with *)

(** An implementation of [WorkerBinding] that carries bytes of its own, to
    run the builder with a body writer ([workers.go] itself has the inherit
    binding only): its fragment names the part, and its writer writes that
    part under the name of the binding. *)
Record TextPartBinding : Type := mkTextPartBinding {
  part_text : string
}.

#[global] Instance TextPartBinding_serialize : Serialize TextPartBinding :=
  λ b name,
    (JObject [("name", JString name); ("type", JString "text_part"); ("part", JString name)],
     Some (write_part (part_header name "text/plain") (part_text b)),
     None).


Fixpoint quote_bytes (s : string) : string :=
  match s with
  | EmptyString => ""
  | String c rest =>
      if decide (c = dquote ∨ c = "\"%char)
      then String "\"%char (String c (quote_bytes rest))
      else String c (quote_bytes rest)
  end.

Definition quoted (s : string) : string :=
  String dquote (quote_bytes s) +:+ String dquote "".

Fixpoint join (sep : string) (l : list string) : string :=
  match l with
  | [] => ""
  | [x] => x
  | x :: rest => x +:+ sep +:+ join sep rest
  end.

(** A compact printer of JSON values, exact on text made of printable ASCII
    characters. *)
Fixpoint compact_json (j : json) : string :=
  match j with
  | JNull => "null"
  | JBool b => if b then "true" else "false"
  | JNumber n => pretty n
  | JString s => quoted s
  | JArray items => "[" +:+ join "," (map compact_json items) +:+ "]"
  | JObject fields =>
      "{" +:+ join "," (map (λ kv, quoted kv.1 +:+ ":" +:+ compact_json kv.2) fields) +:+ "}"
  end.

Definition compact_Marshal : JSONMarshal := compact_json.

(** A server that answers every request with the same bytes. *)
Definition canned_server (res : string) : Transport := λ _ _, (res, None).

(** A decoder whose input always decodes to [v]. *)
Definition canned_decoder {T : Type} (v : T) : JSONUnmarshal T := λ _ _, (v, None).

Definition example_tags : ErrorTags := mkErrorTags "request failed" "unmarshal failed".

Definition ok_Response : Response := mkResponse true [] [].

(** A server that fails every request, and a decoder that fails on every
    input and leaves [v] in the value. *)
Definition failing_server (err : error) : Transport := λ _ _, ("", Some err).
Definition failing_decoder {T : Type} (v : T) (err : error) : JSONUnmarshal T :=
  λ _ _, (v, Some err).

(** Two more implementations of [WorkerBinding] to run the error paths of
    the builder with: one whose [serialize] fails, one whose body writer
    fails. *)
Record FailingBinding : Type := mkFailingBinding {
  failure : error
}.

#[global] Instance FailingBinding_serialize : Serialize FailingBinding :=
  λ b name, (JNull, None, Some (failure b)).

Record BrokenPartBinding : Type := mkBrokenPartBinding {
  write_failure : error
}.

#[global] Instance BrokenPartBinding_serialize : Serialize BrokenPartBinding :=
  λ b name,
    (JObject [("name", JString name); ("type", JString "text_part"); ("part", JString name)],
     Some (λ mpw, (mpw, Some (write_failure b))),
     None).

Definition bindings_with_failure : gmap string WorkerBinding :=
  <["bad" := mkWorkerBinding (mkFailingBinding (errors_New "unencodable"))]>
    (<["b1" := Inherit ""]> ∅).

Definition bindings_with_broken_part : gmap string WorkerBinding :=
  <["blob" := mkWorkerBinding (mkBrokenPartBinding (errors_New "read failed"))]>
    (<["notes" := mkWorkerBinding (mkTextPartBinding "hello")]> ∅).


(** * Properties *)

(** ** Byte strings *)

Lemma string_app_cons (c : ascii) (s t : string) : String c s +:+ t = String c (s +:+ t).
Proof. reflexivity. Qed.

Lemma string_app_nil_l (s : string) : "" +:+ s = s.
Proof. reflexivity. Qed.

Lemma string_app_assoc (s t u : string) : (s +:+ t) +:+ u = s +:+ (t +:+ u).
Proof.
  induction s as [|c s IH]; [done|].
  rewrite !string_app_cons. by f_equal.
Qed.

Lemma string_app_nil_r (s : string) : s +:+ "" = s.
Proof.
  induction s as [|c s IH]; [done|].
  rewrite string_app_cons. by f_equal.
Qed.

(** ** The collision loop *)

Lemma length_string_app (s t : string) :
  String.length (s +:+ t) = (String.length s + String.length t)%nat.
Proof.
  induction s as [|c s IH]; [done|].
  change (String c s +:+ t) with (String c (s +:+ t)). simpl. by rewrite IH.
Qed.

Lemma hasKey_dom (m : gmap string WorkerBinding) (s : string) :
  hasKey m s = true ↔ s ∈ dom m.
Proof.
  unfold hasKey. rewrite elem_of_dom.
  destruct (m !! s) as [v|].
  - split; [by eexists | done].
  - split; [done | by intros [? ?]].
Qed.

Lemma longer_keys_decr (m : gmap string WorkerBinding) (s : string) :
  hasKey m s = true → (longer_keys m (s +:+ "_") < longer_keys m s)%nat.
Proof.
  intros Hs%hasKey_dom. unfold longer_keys. apply subset_size.
  apply strict_spec_alt. split.
  - intros k [Hk ?]%elem_of_filter. apply elem_of_filter. split; [|done].
    rewrite length_string_app in Hk. lia.
  - intros Heq.
    assert (s ∈ filter (λ k, (String.length s ≤ String.length k)%nat) (dom m)) as Hin
      by (apply elem_of_filter; split; [lia | done]).
    rewrite <- Heq in Hin. apply elem_of_filter in Hin as [Hk _].
    rewrite length_string_app in Hk. simpl in Hk. lia.
Qed.

Lemma chooseScriptBodyPart_step (m : gmap string WorkerBinding) (s : string) :
  chooseScriptBodyPart m s =
  if hasKey m s then chooseScriptBodyPart m (s +:+ "_") else s.
Proof.
  funelim (chooseScriptBodyPart m s); by rewrite e.
Qed.

(** From any candidate [s], the loop stops after some number [n] of turns:
    the [n] candidates it went through are keys, the one it stops at is
    not. *)
Lemma chooseScriptBodyPart_from (m : gmap string WorkerBinding) (s : string) :
  ∃ n : nat,
    chooseScriptBodyPart m s = s +:+ Repeat "_" n
    ∧ hasKey m (s +:+ Repeat "_" n) = false
    ∧ ∀ k : nat, (k < n)%nat → hasKey m (s +:+ Repeat "_" k) = true.
Proof.
  remember (longer_keys m s) as fuel eqn:Hfuel.
  revert s Hfuel.
  induction (lt_wf fuel) as [fuel _ IH]. intros s ->.
  rewrite chooseScriptBodyPart_step.
  destruct (hasKey m s) eqn:Hs.
  - destruct (IH _ (longer_keys_decr m s Hs) (s +:+ "_") eq_refl)
      as (n & Hres & Hstop & Hkeys).
    assert (∀ k, s +:+ Repeat "_" (S k) = (s +:+ "_") +:+ Repeat "_" k) as Hshift
      by (intros k; by rewrite string_app_assoc).
    exists (S n). rewrite Hshift. split; [done|]. split; [done|].
    intros k Hk. destruct k as [|k].
    + simpl. by rewrite string_app_nil_r.
    + rewrite Hshift. apply Hkeys. lia.
  - exists 0%nat. simpl. rewrite string_app_nil_r. split; [done|]. split; [done|].
    intros k Hk. lia.
Qed.

Lemma length_Repeat (n : nat) : String.length (Repeat "_" n) = n.
Proof.
  induction n as [|n IH]; [done|].
  change (Repeat "_" (S n)) with (String "_"%char (Repeat "_" n)). simpl. by rewrite IH.
Qed.

Lemma script_name_inj (j k : nat) : script_name j = script_name k → j = k.
Proof.
  intros Heq. apply (f_equal String.length) in Heq.
  unfold script_name in Heq. rewrite !length_string_app, !length_Repeat in Heq. lia.
Qed.



(** The candidates the loop went through are distinct keys of the map, so
    there are no more of them than the map has entries. *)
Lemma collisions_bounded (m : gmap string WorkerBinding) (n : nat) :
  (∀ k : nat, (k < n)%nat → hasKey m (script_name k) = true) → (n ≤ size m)%nat.
Proof.
  intros Hkeys.
  assert (script_name <$> seq 0 n ⊆+ elements (dom m)) as Hsub.
  { apply NoDup_submseteq.
    - apply NoDup_fmap_2; [|apply NoDup_seq].
      intros j k. apply script_name_inj.
    - intros x (k & -> & Hk)%list_elem_of_fmap.
      apply elem_of_elements, hasKey_dom, Hkeys.
      apply elem_of_seq in Hk. lia. }
  apply submseteq_length in Hsub.
  rewrite length_fmap, length_seq in Hsub.
  rewrite <- size_dom. exact Hsub.
Qed.

(** C3. For every binding map the collision loop of [formatMultipartBody]
    terminates, after at most as many turns as the map has bindings: it
    starts from the literal "script", appends one marker "_" for each
    candidate that is a binding name, and the name it stops at is the name
    of no binding. *)
Theorem chooseScriptBodyPart_unique (m : gmap string WorkerBinding) :
  ∃ n : nat,
    (n ≤ size m)%nat
    ∧ chooseScriptBodyPart m "script" = script_name n
    ∧ (∀ k : nat, (k < n)%nat → is_Some (m !! script_name k))
    ∧ hasKey m (chooseScriptBodyPart m "script") = false
    ∧ (∀ name : string, is_Some (m !! name) → name ≠ chooseScriptBodyPart m "script").
Proof.
  destruct (chooseScriptBodyPart_from m "script") as (n & Hres & Hstop & Hkeys).
  exists n. fold (script_name n) in Hres, Hstop. rewrite Hres.
  split; [by apply collisions_bounded|].
  split; [done|]. split.
  - intros k Hk. apply elem_of_dom, hasKey_dom. by apply Hkeys.
  - split; [done|]. intros name Hname ->.
    apply elem_of_dom, hasKey_dom in Hname. congruence.
Qed.

(** ** The multipart writer on a sink that accepts every write *)

Lemma NewWriter_sound (boundary : string) : sound (NewWriter bytes_Buffer boundary).
Proof. by split. Qed.

Lemma part_close_sound (mw : Writer) (p : nat) :
  sound mw → lastpart mw = Some p →
  part_close p mw =
    (mkWriter (w mw) (boundary mw) (Some p)
              (alter (λ q, mkPart true (we q)) p (parts mw)), None).
Proof.
  intros [_ Hlast] Hp. rewrite Hp in Hlast.
  unfold part_close. by rewrite Hp, Hlast.
Qed.

Lemma CreatePart_sound (header : MIMEHeader) (mw : Writer) :
  sound mw →
  ∃ (mw1 : Writer) (p : nat),
    CreatePart header mw = (mw1, Some p, None)
    ∧ sound mw1
    ∧ lastpart mw1 = Some p
    ∧ boundary mw1 = boundary mw
    ∧ Bytes mw1 =
        Bytes mw +:+ part_prologue (bool_decide (lastpart mw = None)) (boundary mw) header.
Proof.
  intros Hs. pose proof Hs as [Hfault Hlast].
  unfold CreatePart.
  destruct (lastpart mw) as [p|] eqn:Hp.
  - rewrite (part_close_sound mw p Hs Hp). simpl.
    unfold Sink_Write. rewrite Hfault. simpl.
    eexists _, _. split; [done|]. repeat split; simpl; try done.
    rewrite lookup_app_r by done. by rewrite Nat.sub_diag.
  - simpl. rewrite Hp. unfold Sink_Write. rewrite Hfault. simpl.
    eexists _, _. split; [done|]. repeat split; simpl; try done.
    rewrite lookup_app_r by done. by rewrite Nat.sub_diag.
Qed.

Lemma part_Write_sound (p : nat) (d : string) (mw : Writer) :
  sound mw → lastpart mw = Some p →
  ∃ mw1 : Writer,
    part_Write (Some p) d mw = Returns (mw1, None)
    ∧ sound mw1
    ∧ lastpart mw1 = Some p
    ∧ boundary mw1 = boundary mw
    ∧ Bytes mw1 = Bytes mw +:+ d.
Proof.
  intros [Hfault Hlast] Hp. rewrite Hp in Hlast.
  unfold part_Write. rewrite Hlast. simpl.
  unfold Sink_Write. rewrite Hfault. simpl.
  eexists. split; [done|]. repeat split; simpl; try done.
  by rewrite Hp.
Qed.

Lemma write_part_sound (header : MIMEHeader) (data : string) (mw : Writer) :
  sound mw →
  ∃ mw1 : Writer,
    write_part header data mw = (mw1, None)
    ∧ sound mw1
    ∧ lastpart mw1 ≠ None
    ∧ boundary mw1 = boundary mw
    ∧ Bytes mw1 =
        Bytes mw +:+ part_prologue (bool_decide (lastpart mw = None)) (boundary mw) header
                 +:+ data.
Proof.
  intros Hs. unfold write_part.
  destruct (CreatePart_sound header mw Hs) as (mw1 & p & -> & Hs1 & Hp1 & Hb1 & Hbytes1).
  destruct (part_Write_sound p data mw1 Hs1 Hp1) as (mw2 & -> & Hs2 & Hp2 & Hb2 & Hbytes2).
  exists mw2. split; [done|]. split; [done|]. split; [by rewrite Hp2|].
  split; [congruence|]. by rewrite Hbytes2, Hbytes1, string_app_assoc.
Qed.

Lemma Close_sound (mw : Writer) :
  sound mw →
  ∃ mw1 : Writer,
    Close mw = (mw1, None)
    ∧ boundary mw1 = boundary mw
    ∧ Bytes mw1 = Bytes mw +:+ closing_delimiter (boundary mw).
Proof.
  intros Hs. pose proof Hs as [Hfault Hlast].
  unfold Close.
  destruct (lastpart mw) as [p|] eqn:Hp.
  - rewrite (part_close_sound mw p Hs Hp). simpl.
    unfold Sink_Write. rewrite Hfault. simpl. by eexists.
  - simpl. unfold Sink_Write. rewrite Hfault. simpl. by eexists.
Qed.

(** Writers that each write one part, run in order, append these parts. *)
Lemma run_bodyWriters_parts (bodyWriters : list (option bindingBodyWriter))
    (bparts : list (MIMEHeader * string)) (mw : Writer) :
  sound mw → lastpart mw ≠ None →
  write_parts (omap id bodyWriters) bparts →
  ∃ mw1 : Writer,
    run_bodyWriters bodyWriters mw = (mw1, None)
    ∧ sound mw1
    ∧ boundary mw1 = boundary mw
    ∧ Bytes mw1 = Bytes mw +:+ render_parts false (boundary mw) bparts.
Proof.
  revert bparts mw.
  unfold write_parts.
  induction bodyWriters as [|[writer|] rest IH]; intros bparts mw Hs Hlast Hall; simpl in *.
  - apply Forall2_nil_inv_l in Hall as ->. simpl.
    exists mw. by rewrite string_app_nil_r.
  - apply Forall2_cons_inv_l in Hall as ([header data] & bparts' & Hw & Hrest & ->).
    simpl in Hw. rewrite Hw.
    destruct (write_part_sound header data mw Hs) as (mw1 & -> & Hs1 & Hl1 & Hb1 & Hbytes1).
    destruct (IH bparts' mw1 Hs1 Hl1 Hrest) as (mw2 & -> & Hs2 & Hb2 & Hbytes2).
    exists mw2. split; [done|]. split; [done|]. split; [congruence|].
    rewrite Hbytes2, Hbytes1, Hb1. simpl.
    rewrite bool_decide_eq_false_2 by done.
    by rewrite !string_app_assoc.
  - by apply IH.
Qed.

(** ** The loops over the bindings *)

(** When no binding fails to serialize, the first loop appends one fragment
    and one writer slot per entry, in the order of the entries. *)
Lemma serialize_bindings_ok (entries : list (string * WorkerBinding))
    (metas : list RawMessage) (bodyWriters : list (option bindingBodyWriter)) :
  Forall (λ entry, entry_error entry = None) entries →
  serialize_bindings entries metas bodyWriters =
    ((metas ++ (entry_meta <$> entries))%list,
     (bodyWriters ++ (entry_writer <$> entries))%list, None).
Proof.
  revert metas bodyWriters.
  induction entries as [|[name b] rest IH]; intros metas bodyWriters Hall; simpl.
  - by rewrite !app_nil_r.
  - apply Forall_cons in Hall as [Hhead Hrest].
    unfold entry_error in Hhead. simpl in Hhead.
    destruct (WorkerBinding_serialize b name) as [[bindingMeta bodyWriter] err] eqn:Hser.
    simpl in Hhead. subst err.
    rewrite (IH _ _ Hrest). unfold entry_meta, entry_writer. simpl.
    rewrite Hser. simpl. by rewrite <- !app_assoc.
Qed.

(** The error of the first loop is the error of some binding. *)
Lemma serialize_bindings_error (entries : list (string * WorkerBinding))
    (metas : list RawMessage) (bodyWriters : list (option bindingBodyWriter)) :
  match (serialize_bindings entries metas bodyWriters).2 with
  | Some err => ∃ entry, entry ∈ entries ∧ entry_error entry = Some err
  | None => Forall (λ entry, entry_error entry = None) entries
  end.
Proof.
  revert metas bodyWriters.
  induction entries as [|[name b] rest IH]; intros metas bodyWriters; simpl.
  - constructor.
  - destruct (WorkerBinding_serialize b name) as [[bindingMeta bodyWriter] err] eqn:Hser.
    destruct err as [err|]; simpl.
    + exists (name, b). split; [left|]. unfold entry_error. simpl. by rewrite Hser.
    + specialize (IH (metas ++ [bindingMeta])%list (bodyWriters ++ [bodyWriter])%list).
      destruct (serialize_bindings rest _ _).2 as [err|].
      * destruct IH as (entry & Hin & Herr). exists entry. split; [by right | done].
      * constructor; [|done]. unfold entry_error. simpl. by rewrite Hser.
Qed.

(** ** The order of a [range] *)





(** ** The multipart builder *)

Section Builder.
Context {marshal : JSONMarshal}.

(** When every binding serializes, [formatMultipartBody] reaches its last
    loop with the metadata part and the script part written, and returns
    what the body writers and the closing delimiter add. *)
Lemma formatMultipartBody_after_script (bnd : string) (order : list string)
    (params : WorkerScriptParams) :
  let entries := range_map order (Bindings params) in
  Forall (λ entry, entry_error entry = None) entries →
  ∃ mw : Writer,
    sound mw ∧ lastpart mw ≠ None ∧ boundary mw = bnd
    ∧ Bytes mw = render_parts true bnd [metadata_part params entries; script_part params]
    ∧ formatMultipartBody bnd order params =
        match run_bodyWriters (entry_writer <$> entries) mw with
        | (_, Some err) => Returns ("", "", Some err)
        | (mw1, None) => Returns (FormDataContentType (Close mw1).1, Bytes (Close mw1).1, None)
        end.
Proof.
  intros entries Hser.
  unfold formatMultipartBody, formatMultipartBodyOn.
  fold entries. rewrite (serialize_bindings_ok entries [] [] Hser).
  rewrite !app_nil_l.
  fold (part_header "metadata" "application/json").
  fold (part_header (chooseScriptBodyPart (Bindings params) "script") "application/javascript").
  destruct (CreatePart_sound (part_header "metadata" "application/json")
              (NewWriter bytes_Buffer bnd) (NewWriter_sound bnd))
    as (mw1 & p1 & -> & Hs1 & Hp1 & Hb1 & Hbytes1).
  destruct (part_Write_sound p1
              (json_Marshal (metadata_json (chooseScriptBodyPart (Bindings params) "script")
                                           (entry_meta <$> entries))) mw1 Hs1 Hp1)
    as (mw2 & -> & Hs2 & Hp2 & Hb2 & Hbytes2).
  destruct (CreatePart_sound
              (part_header (chooseScriptBodyPart (Bindings params) "script")
                           "application/javascript") mw2 Hs2)
    as (mw3 & p3 & -> & Hs3 & Hp3 & Hb3 & Hbytes3).
  destruct (part_Write_sound p3 (Script params) mw3 Hs3 Hp3)
    as (mw4 & -> & Hs4 & Hp4 & Hb4 & Hbytes4).
  exists mw4. split; [done|]. split; [by rewrite Hp4|].
  split; [by rewrite Hb4, Hb3, Hb2, Hb1|]. split.
  - rewrite Hbytes4, Hbytes3, Hbytes2, Hbytes1, Hb2, Hb1, Hp2. simpl.
    unfold metadata_part, script_part. simpl.
    by rewrite !string_app_assoc, string_app_nil_r.
  - destruct (run_bodyWriters (entry_writer <$> entries) mw4) as [mw5 [err|]]; [done|].
    by destruct (Close mw5).
Qed.
End Builder.

Lemma FormDataContentType_boundary (mw mw' : Writer) :
  boundary mw = boundary mw' → FormDataContentType mw = FormDataContentType mw'.
Proof. unfold FormDataContentType. by intros ->. Qed.

Lemma omap_id_fmap {A B : Type} (f : A → option B) (l : list A) :
  omap id (f <$> l) = omap f l.
Proof.
  induction l as [|x l IH]; [done|].
  rewrite fmap_cons. simpl. destruct (f x); simpl; [f_equal|]; exact IH.
Qed.

Section BuilderParts.
Context {marshal : JSONMarshal}.

(** When every binding serializes and every writer supplied writes one
    part, the builder returns the message made of the metadata part, the
    script part and these parts. *)
Lemma formatMultipartBody_message (bnd : string) (order : list string)
    (params : WorkerScriptParams) (bparts : list (MIMEHeader * string)) :
  let entries := range_map order (Bindings params) in
  Forall (λ entry, entry_error entry = None) entries →
  write_parts (omap entry_writer entries) bparts →
  formatMultipartBody bnd order params =
    Returns (FormDataContentType (NewWriter bytes_Buffer bnd),
             multipart_message bnd
               (metadata_part params entries :: script_part params :: bparts),
             None).
Proof.
  intros entries Hser Hparts.
  destruct (formatMultipartBody_after_script bnd order params Hser)
    as (mw & Hs & Hlast & Hb & Hbytes & ->).
  fold entries. rewrite <- omap_id_fmap in Hparts.
  destruct (run_bodyWriters_parts _ bparts mw Hs Hlast Hparts)
    as (mw1 & -> & Hs1 & Hb1 & Hbytes1).
  destruct (Close_sound mw1 Hs1) as (mw2 & -> & Hb2 & Hbytes2). simpl.
  rewrite (FormDataContentType_boundary mw2 (NewWriter bytes_Buffer bnd))
    by (simpl; congruence).
  rewrite Hbytes2, Hbytes1, Hbytes, Hb1, Hb.
  unfold multipart_message, metadata_part, script_part. simpl.
  by rewrite !string_app_assoc, ?string_app_nil_l.
Qed.

End BuilderParts.

(** ** The upload of the test, with two inherit bindings *)




Section InheritBindings.
Context {marshal : JSONMarshal}.

End InheritBindings.


(** ** A sink that refuses the script part *)

Section FaultySink.
Context {marshal : JSONMarshal}.

End FaultySink.

(** ** The builder on a [bytes.Buffer] returns *)

Lemma range_map_empty {V : Type} (order : list string) :
  range_map order (∅ : gmap string V) = [].
Proof.
  unfold range_map. induction order as [|k order IH]; [done|].
  simpl. by rewrite lookup_empty.
Qed.

Section BuilderReturns.
Context {marshal : JSONMarshal}.

(** Whatever the bindings do, [formatMultipartBody] does not panic: it
    returns the error of a binding or of a body writer, or a body. *)
Lemma formatMultipartBody_returns (bnd : string) (order : list string)
    (params : WorkerScriptParams) :
  ∃ (contentType body : string) (err : option error),
    formatMultipartBody bnd order params = Returns (contentType, body, err).
Proof.
  pose proof (serialize_bindings_error (range_map order (Bindings params)) [] []) as Hser.
  destruct (serialize_bindings (range_map order (Bindings params)) [] [])
    as [[metas bodyWriters] [err|]] eqn:Hloop; simpl in Hser.
  - unfold formatMultipartBody, formatMultipartBodyOn. rewrite Hloop. by eexists _, _, _.
  - destruct (formatMultipartBody_after_script bnd order params Hser)
      as (mw & _ & _ & _ & _ & ->).
    destruct (run_bodyWriters _ mw) as [mw1 [err|]]; by eexists _, _, _.
Qed.

(** With no binding, the body is the metadata part, with an empty list of
    bindings, followed by the script part named "script". *)
Lemma formatMultipartBody_no_bindings (bnd : string) (order : list string)
    (text : string) :
  formatMultipartBody bnd order (mkWorkerScriptParams text ∅) =
    Returns (FormDataContentType (NewWriter bytes_Buffer bnd),
             multipart_message bnd
               [(part_header "metadata" "application/json",
                 json_Marshal (metadata_json "script" []));
                (part_header "script" "application/javascript", text)],
             None).
Proof.
  pose proof (formatMultipartBody_message bnd order (mkWorkerScriptParams text ∅) []) as Hmsg.
  unfold metadata_part, script_part in Hmsg. simpl in Hmsg.
  rewrite range_map_empty in Hmsg.
  rewrite chooseScriptBodyPart_step in Hmsg. simpl in Hmsg.
  apply Hmsg; by constructor.
Qed.
End BuilderReturns.

(** ** Routing between the two families of endpoints *)

Lemma Content_Type_header (contentType : string) :
  MIMEHeader_Set "Content-Type" contentType [] = [("Content-Type", [contentType])].
Proof. reflexivity. Qed.

(** What a non-empty boundary adds in front of the content type keeps it
    apart from "application/javascript". *)
Lemma FormDataContentType_multipart (mw : Writer) :
  FormDataContentType mw ≠ "application/javascript".
Proof. unfold FormDataContentType. discriminate. Qed.

Ltac run_operation :=
  unfold mbind, Net_bind, mret, Net_ret, makeRequest, makeRequestWithHeaders;
  repeat case_decide; simpl; try done;
  repeat match goal with
    | |- context [roundTrip ?log ?req] =>
        destruct (roundTrip log req) as [? [?|]]; simpl; try done
    | |- context [json_Unmarshal ?res ?r] =>
        destruct (json_Unmarshal res r) as [? [?|]]; simpl; try done
    end.

Section Routing.
Context {transport : Transport} {tags : ErrorTags} {marshal : JSONMarshal}.
Context {decode_script : JSONUnmarshal WorkerScriptResponse}.
Context {decode_list : JSONUnmarshal WorkerListResponse}.
Context {decode_route : JSONUnmarshal WorkerRouteResponse}.
Context {decode_routes : JSONUnmarshal WorkerRoutesResponse}.

(** C4. On a client with no account identifier, every operation of the
    multi-script family returns the precondition error and leaves the log
    of requests as it was: delete, download and upload with a script
    name, the list of scripts, and the creation or update of a route with
    a script.  [UploadWorkerWithBindings] builds the body before it looks
    at the client: it makes no request either, and the error it returns
    is the precondition error unless the body could not be built, in
    which case it is the error of the builder. *)
Theorem multi_script_requires_organization (api : API) (log : list Request) :
  OrganizationID api = "" →
  (∀ p : WorkerRequestParams, ScriptName p ≠ "" →
     DeleteWorker api p log = ((WorkerScriptResponse_zero, Some errOrganizationRequired), log))
  ∧ (∀ p : WorkerRequestParams, ScriptName p ≠ "" →
       DownloadWorker api p log
       = ((WorkerScriptResponse_zero, Some errOrganizationRequired), log))
  ∧ (∀ (p : WorkerRequestParams) (data : string), ScriptName p ≠ "" →
       UploadWorker api p data log
       = ((WorkerScriptResponse_zero, Some errOrganizationRequired), log))
  ∧ (∀ scriptName contentType body : string,
       multiScriptUpload api scriptName contentType body log
       = ((WorkerScriptResponse_zero, Some errOrganizationRequired), log))
  ∧ (∀ (bnd : string) (order : list string) (p : WorkerRequestParams)
       (data : WorkerScriptParams), ScriptName p ≠ "" →
       UploadWorkerWithBindings bnd order api p data log
       = (Returns (WorkerScriptResponse_zero,
                   Some match formatMultipartBody bnd order data with
                        | Returns (_, _, Some err) => err
                        | _ => errOrganizationRequired
                        end), log))
  ∧ ListWorkerScripts api log
    = ((WorkerListResponse_zero, Some errOrganizationRequired), log)
  ∧ (∀ (zoneID : string) (route : WorkerRoute), route_Script route ≠ "" →
       CreateWorkerRoute api zoneID route log
       = ((WorkerRouteResponse_zero, Some errOrganizationRequired), log))
  ∧ (∀ (zoneID routeID : string) (route : WorkerRoute), route_Script route ≠ "" →
       UpdateWorkerRoute api zoneID routeID route log
       = ((WorkerRouteResponse_zero, Some errOrganizationRequired), log)).
Proof.
  intros Horg.
  assert (∀ scriptName contentType body : string,
            multiScriptUpload api scriptName contentType body log
            = ((WorkerScriptResponse_zero, Some errOrganizationRequired), log)) as Hmulti.
  { intros. unfold multiScriptUpload. run_operation. }
  repeat split.
  - intros p Hp. unfold DeleteWorker, deleteWorkerWithName. run_operation.
  - intros p Hp. unfold DownloadWorker, downloadWorkerWithName. run_operation.
  - intros p data Hp. unfold UploadWorker. case_decide; [apply Hmulti | done].
  - exact Hmulti.
  - intros bnd order p data Hp. unfold UploadWorkerWithBindings.
    destruct (formatMultipartBody_returns bnd order data)
      as (contentType & body & err & ->).
    destruct err as [err|]; [done|]. case_decide; [|done].
    unfold mbind, Net_bind. by rewrite Hmulti.
  - unfold ListWorkerScripts. run_operation.
  - intros zoneID route Hroute. unfold CreateWorkerRoute. run_operation.
  - intros zoneID routeID route Hroute. unfold UpdateWorkerRoute. run_operation.
Qed.

(** C6. A delete, download or upload call with a non-empty script name is
    a call of the multi-script family, whatever zone identifier comes
    with it: the request it makes, if the client has an account
    identifier, goes to [/accounts/{account}/workers/scripts/{name}], and
    with two different zone identifiers the call issues the same request
    and returns the same result.  (An upload with bindings makes its
    request once the body has been built.) *)
Theorem script_name_selects_account_path (api : API) (name : string) (log : list Request) :
  name ≠ "" →
  let uri := "/accounts/" +:+ OrganizationID api +:+ "/workers/scripts/" +:+ name in
  let sent (req : Request) :=
    if decide (OrganizationID api = "") then log else (log ++ [req])%list in
  (∀ zone : string,
     (DeleteWorker api (mkWorkerRequestParams zone name) log).2
     = sent (mkRequest "DELETE" uri NoParams []))
  ∧ (∀ zone : string,
       (DownloadWorker api (mkWorkerRequestParams zone name) log).2
       = sent (mkRequest "GET" uri NoParams []))
  ∧ (∀ zone data : string,
       (UploadWorker api (mkWorkerRequestParams zone name) data log).2
       = sent (mkRequest "PUT" uri (BytesParams data)
                         [("Content-Type", ["application/javascript"])]))
  ∧ (∀ (zone bnd : string) (order : list string) (data : WorkerScriptParams)
       (contentType body : string),
       formatMultipartBody bnd order data = Returns (contentType, body, None) →
       (UploadWorkerWithBindings bnd order api (mkWorkerRequestParams zone name) data log).2
       = sent (mkRequest "PUT" uri (BytesParams body) [("Content-Type", [contentType])]))
  ∧ (∀ zone zone' : string,
       DeleteWorker api (mkWorkerRequestParams zone name) log
       = DeleteWorker api (mkWorkerRequestParams zone' name) log
       ∧ DownloadWorker api (mkWorkerRequestParams zone name) log
         = DownloadWorker api (mkWorkerRequestParams zone' name) log
       ∧ (∀ data : string,
            UploadWorker api (mkWorkerRequestParams zone name) data log
            = UploadWorker api (mkWorkerRequestParams zone' name) data log)
       ∧ (∀ (bnd : string) (order : list string) (data : WorkerScriptParams),
            UploadWorkerWithBindings bnd order api (mkWorkerRequestParams zone name) data log
            = UploadWorkerWithBindings bnd order api
                (mkWorkerRequestParams zone' name) data log)).
Proof.
  intros Hname uri sent. unfold sent, uri. clear sent uri.
  assert (∀ contentType body : string,
            (multiScriptUpload api name contentType body log).2
            = if decide (OrganizationID api = "") then log
              else (log ++ [mkRequest "PUT"
                              ("/accounts/" +:+ OrganizationID api +:+ "/workers/scripts/"
                               +:+ name)
                              (BytesParams body) [("Content-Type", [contentType])]])%list)
    as Hmulti.
  { intros. unfold multiScriptUpload. rewrite Content_Type_header. run_operation. }
  split; [|split; [|split; [|split]]].
  - intros zone. unfold DeleteWorker, deleteWorkerWithName. simpl.
    rewrite (decide_True (P := name ≠ "")) by done. run_operation.
  - intros zone. unfold DownloadWorker, downloadWorkerWithName. simpl.
    rewrite (decide_True (P := name ≠ "")) by done. run_operation.
  - intros zone data. unfold UploadWorker. simpl.
    rewrite (decide_True (P := name ≠ "")) by done. apply Hmulti.
  - intros zone bnd order data contentType body Hbody.
    unfold UploadWorkerWithBindings. rewrite Hbody. simpl.
    rewrite (decide_True (P := name ≠ "")) by done.
    unfold mbind, Net_bind. specialize (Hmulti contentType body).
    destruct (multiScriptUpload api name contentType body log) as [r log1].
    exact Hmulti.
  - intros zone zone'.
    unfold DeleteWorker, DownloadWorker, UploadWorker, UploadWorkerWithBindings. simpl.
    destruct (decide (name ≠ "")) as [_|Hempty]; [|done].
    split; [done|]. split; [done|]. split; [done|].
    intros bnd order data.
    by destruct (formatMultipartBody bnd order data) as [[[contentType body] [err|]]|].
Qed.

(** C10. A delete, download or upload call with an empty script name is
    sent to the zone path built from the zone identifier as it is given,
    with no check of it and no check of the client: one request is always
    made, to [/zones/{zone}/workers/script] (for the empty zone
    identifier, to "/zones//workers/script"), and an error returned by
    the call is a wrapped error of the transport or of the decoder, not
    a precondition error.  (An upload with bindings makes its request
    once the body has been built.) *)
Theorem single_script_no_validation (api : API) (p : WorkerRequestParams)
    (log : list Request) :
  ScriptName p = "" →
  let uri := "/zones/" +:+ ZoneID p +:+ "/workers/script" in
  let wrapped (err : option error) :=
    ∀ e : error, err = Some e → ∃ (cause : error) (tag : string), e = errors_Wrap cause tag in
  ((DeleteWorker api p log).2 = (log ++ [mkRequest "DELETE" uri NoParams []])%list
   ∧ wrapped (DeleteWorker api p log).1.2)
  ∧ ((DownloadWorker api p log).2 = (log ++ [mkRequest "GET" uri NoParams []])%list
     ∧ wrapped (DownloadWorker api p log).1.2)
  ∧ (∀ data : string,
       (UploadWorker api p data log).2
       = (log ++ [mkRequest "PUT" uri (BytesParams data)
                            [("Content-Type", ["application/javascript"])]])%list
       ∧ wrapped (UploadWorker api p data log).1.2)
  ∧ (∀ (bnd : string) (order : list string) (data : WorkerScriptParams)
       (contentType body : string),
       formatMultipartBody bnd order data = Returns (contentType, body, None) →
       (UploadWorkerWithBindings bnd order api p data log).2
       = (log ++ [mkRequest "PUT" uri (BytesParams body)
                            [("Content-Type", [contentType])]])%list)
  ∧ (ZoneID p = "" → uri = "/zones//workers/script").
Proof.
  intros Hname uri wrapped. unfold wrapped, uri. clear wrapped uri.
  assert (∀ contentType body : string,
            (singleScriptUpload api (ZoneID p) contentType body log).2
            = (log ++ [mkRequest "PUT" ("/zones/" +:+ ZoneID p +:+ "/workers/script")
                         (BytesParams body) [("Content-Type", [contentType])]])%list
            ∧ ∀ e : error,
                (singleScriptUpload api (ZoneID p) contentType body log).1.2 = Some e →
                ∃ (cause : error) (tag : string), e = errors_Wrap cause tag)
    as Hsingle.
  { intros. unfold singleScriptUpload. rewrite Content_Type_header.
    run_operation; split; try done; intros ? [= <-]; by eexists _, _. }
  split; [|split; [|split; [|split]]].
  - unfold DeleteWorker. rewrite Hname.
    destruct (decide ("" ≠ "")) as [Hne|_]; [by destruct Hne|].
    run_operation; split; try done; intros ? [= <-]; by eexists _, _.
  - unfold DownloadWorker. rewrite Hname.
    destruct (decide ("" ≠ "")) as [Hne|_]; [by destruct Hne|].
    run_operation; split; try done; intros ? [= <-]; by eexists _, _.
  - intros data. unfold UploadWorker. rewrite Hname.
    destruct (decide ("" ≠ "")) as [Hne|_]; [by destruct Hne|].
    apply Hsingle.
  - intros bnd order data contentType body Hbody.
    unfold UploadWorkerWithBindings. rewrite Hbody, Hname. simpl.
    destruct (decide ("" ≠ "")) as [Hne|_]; [by destruct Hne|].
    unfold mbind, Net_bind.
    destruct (Hsingle contentType body) as [Hlog _].
    destruct (singleScriptUpload api (ZoneID p) contentType body log) as [r log1].
    exact Hlog.
  - by intros ->.
Qed.

(** C8. When the transport answers the request of a download with bytes
    and no error, the call returns no error and a result whose script is
    these bytes as they are and whose success flag is set: the result is
    built from the zero value and the response bytes alone, and no decoder
    is applied to them.  This holds for a call with an empty script name,
    and for a call with a script name on a client that has an account
    identifier. *)
Theorem download_returns_raw_script (api : API) (p : WorkerRequestParams)
    (log : list Request) (res : string) :
  let uri := if decide (ScriptName p ≠ "")
             then "/accounts/" +:+ OrganizationID api +:+ "/workers/scripts/"
                  +:+ ScriptName p
             else "/zones/" +:+ ZoneID p +:+ "/workers/script" in
  let req := mkRequest "GET" uri NoParams [] in
  ScriptName p = "" ∨ OrganizationID api ≠ "" →
  roundTrip log req = (res, None) →
  ∃ r : WorkerScriptResponse,
    DownloadWorker api p log = ((r, None), (log ++ [req])%list)
    ∧ script_Script (script_Result r) = res
    ∧ Success (script_Response r) = true
    ∧ r = set_Success true (set_Script res WorkerScriptResponse_zero).
Proof.
  intros uri req Hmode Hres. unfold req, uri in *. clear req uri.
  exists (set_Success true (set_Script res WorkerScriptResponse_zero)).
  split; [|done].
  unfold DownloadWorker, downloadWorkerWithName.
  destruct (decide (ScriptName p ≠ "")) as [Hname|Hname].
  - destruct Hmode as [Hempty|Horg]; [done|].
    destruct (decide (OrganizationID api = "")) as [?|_]; [done|].
    unfold mbind, Net_bind, mret, Net_ret, makeRequest, makeRequestWithHeaders.
    by rewrite Hres.
  - unfold mbind, Net_bind, mret, Net_ret, makeRequest, makeRequestWithHeaders.
    by rewrite Hres.
Qed.

(** C5, as the code has it.  When the transport answers the listing and
    the answer decodes, [ListWorkerRoutes] returns the routes the server
    supplied with one change, made in both modes alike (with or without
    an account identifier on the client): a route whose script is not
    empty has its flag [Enabled] set to true; a route whose script is
    empty keeps the flag the server supplied.  Identifier, pattern and
    script are returned unchanged. *)
Theorem ListWorkerRoutes_backfill (api : API) (zoneID : string) (log : list Request)
    (res : string) (supplied : WorkerRoutesResponse) :
  let pathComponent := if decide (OrganizationID api ≠ "") then "routes" else "filters" in
  let req := mkRequest "GET" ("/zones/" +:+ zoneID +:+ "/workers/" +:+ pathComponent)
                       NoParams [] in
  roundTrip log req = (res, None) →
  json_Unmarshal res WorkerRoutesResponse_zero = (supplied, None) →
  ∃ r : WorkerRoutesResponse,
    ListWorkerRoutes api zoneID log = ((r, None), (log ++ [req])%list)
    ∧ routes_Response r = routes_Response supplied
    ∧ Forall2 (λ returned given,
                 route_ID returned = route_ID given
                 ∧ Pattern returned = Pattern given
                 ∧ route_Script returned = route_Script given
                 ∧ Enabled returned =
                     if decide (route_Script given ≠ "") then true else Enabled given)
              (Routes r) (Routes supplied).
Proof.
  intros pathComponent req Hres Hdecode. unfold req, pathComponent in *.
  clear req pathComponent.
  exists (mkWorkerRoutesResponse (routes_Response supplied)
            (backfill_Enabled <$> Routes supplied)).
  split; [|split; [done|]].
  - unfold ListWorkerRoutes.
    unfold mbind, Net_bind, mret, Net_ret, makeRequest, makeRequestWithHeaders.
    by rewrite Hres, Hdecode.
  - simpl. apply Forall2_fmap_l, Forall_Forall2_diag, Forall_forall.
    intros route _. unfold backfill_Enabled. simpl.
    by destruct (decide (route_Script route ≠ "")).
Qed.

(** C1, as the code has it.  [UploadWorker], the upload that takes no
    bindings, sends the script bytes as the body, with the content type
    "application/javascript" and no other header; it makes this one
    request unless a script name is given on a client with no account
    identifier.  [UploadWorkerWithBindings] called with an empty map of
    bindings does not do the same: its request carries a multipart
    message, made of the metadata part with an empty list of bindings and
    of the script part, under the content type of that message. *)
Theorem UploadWorker_sends_raw_script (api : API) (p : WorkerRequestParams)
    (data : string) (log : list Request) :
  let uri := if decide (ScriptName p ≠ "")
             then "/accounts/" +:+ OrganizationID api +:+ "/workers/scripts/"
                  +:+ ScriptName p
             else "/zones/" +:+ ZoneID p +:+ "/workers/script" in
  let sent (req : Request) :=
    if decide (ScriptName p ≠ "" ∧ OrganizationID api = "") then log
    else (log ++ [req])%list in
  (UploadWorker api p data log).2
  = sent (mkRequest "PUT" uri (BytesParams data)
                    [("Content-Type", ["application/javascript"])])
  ∧ ∀ (bnd : string) (order : list string),
      (UploadWorkerWithBindings bnd order api p (mkWorkerScriptParams data ∅) log).2
      = sent (mkRequest "PUT" uri
                (BytesParams
                   (multipart_message bnd
                      [(part_header "metadata" "application/json",
                        json_Marshal (metadata_json "script" []));
                       (part_header "script" "application/javascript", data)]))
                [("Content-Type", [FormDataContentType (NewWriter bytes_Buffer bnd)])]).
Proof.
  intros uri sent. unfold sent, uri. clear sent uri.
  assert (∀ contentType body : string,
            ((if decide (ScriptName p ≠ "")
              then multiScriptUpload api (ScriptName p) contentType body
              else singleScriptUpload api (ZoneID p) contentType body) log).2
            = if decide (ScriptName p ≠ "" ∧ OrganizationID api = "") then log
              else (log ++ [mkRequest "PUT"
                              (if decide (ScriptName p ≠ "")
                               then "/accounts/" +:+ OrganizationID api
                                    +:+ "/workers/scripts/" +:+ ScriptName p
                               else "/zones/" +:+ ZoneID p +:+ "/workers/script")
                              (BytesParams body) [("Content-Type", [contentType])]])%list)
    as Hupload.
  { intros contentType body. unfold multiScriptUpload, singleScriptUpload.
    rewrite Content_Type_header.
    destruct (decide (ScriptName p ≠ "")) as [Hname|Hname];
      destruct (decide (OrganizationID api = "")) as [Horg|Horg];
      (destruct (decide _) as [[? ?]|Hnot]; try done;
       try (exfalso; apply Hnot; by split)); run_operation. }
  split.
  - unfold UploadWorker. apply Hupload.
  - intros bnd order. unfold UploadWorkerWithBindings.
    rewrite formatMultipartBody_no_bindings.
    specialize (Hupload (FormDataContentType (NewWriter bytes_Buffer bnd))
                  (multipart_message bnd
                     [(part_header "metadata" "application/json",
                       json_Marshal (metadata_json "script" []));
                      (part_header "script" "application/javascript", data)])).
    destruct (decide (ScriptName p ≠ "")) as [Hname|Hname];
      unfold mbind, Net_bind in *;
      match goal with
      | |- context [multiScriptUpload ?a ?n ?c ?b ?l] =>
          destruct (multiScriptUpload a n c b l) as [r log1]
      | |- context [singleScriptUpload ?a ?n ?c ?b ?l] =>
          destruct (singleScriptUpload a n c b l) as [r log1]
      end; exact Hupload.
Qed.

End Routing.

(** * Where the code departs from the specification *)

(** C1, as the claim has it, fails for [UploadWorkerWithBindings] with an
    empty map of bindings: the request sent for the script "S" carries a
    multipart message and its content type, neither the bytes "S" nor
    "application/javascript". *)
Lemma UploadWorkerWithBindings_empty_map_wraps :
  (UploadWorkerWithBindings
     (transport := canned_server "{}") (tags := example_tags) (marshal := compact_Marshal)
     (decode_script := canned_decoder WorkerScriptResponse_zero)
     "boundary" [] (mkAPI "") (mkWorkerRequestParams "foo" "")
     (mkWorkerScriptParams "S" ∅) []).2
  = [mkRequest "PUT" "/zones/foo/workers/script"
       (BytesParams
          (multipart_message "boundary"
             [(part_header "metadata" "application/json",
               compact_json (metadata_json "script" []));
              (part_header "script" "application/javascript", "S")]))
       [("Content-Type", ["multipart/form-data; boundary=boundary"])]]
  ∧ multipart_message "boundary"
      [(part_header "metadata" "application/json",
        compact_json (metadata_json "script" []));
       (part_header "script" "application/javascript", "S")] ≠ "S"
  ∧ "multipart/form-data; boundary=boundary" ≠ "application/javascript".
Proof.
  split; [by vm_compute|]. split; [by vm_compute | discriminate].
Qed.

(** C5, as the claim has it, fails in single-script mode: on a client with
    no account identifier, a route that the server supplies with a script
    and with [Enabled] false is returned with [Enabled] true. *)
Lemma ListWorkerRoutes_single_script_backfill :
  let supplied := mkWorkerRoute "e7a5" "app1.example.com/*" false "test_script_1" in
  OrganizationID (mkAPI "") = ""
  ∧ ListWorkerRoutes
      (transport := canned_server "{}") (tags := example_tags)
      (decode_routes := canned_decoder (mkWorkerRoutesResponse ok_Response [supplied]))
      (mkAPI "") "foo" []
    = ((mkWorkerRoutesResponse ok_Response
          [mkWorkerRoute "e7a5" "app1.example.com/*" true "test_script_1"], None),
       [mkRequest "GET" "/zones/foo/workers/filters" NoParams []])
  ∧ Enabled (mkWorkerRoute "e7a5" "app1.example.com/*" true "test_script_1")
    ≠ Enabled supplied.
Proof.
  split; [done|]. split; [by vm_compute | discriminate].
Qed.

(** * The theorems at concrete inputs *)

Lemma chooseScriptBodyPart_unique_witness :
  ∃ n : nat,
    (n ≤ size (<["script" := Inherit ""]> test_bindings))%nat
    ∧ chooseScriptBodyPart (<["script" := Inherit ""]> test_bindings) "script" = script_name n
    ∧ (∀ k : nat, (k < n)%nat →
         is_Some ((<["script" := Inherit ""]> test_bindings) !! script_name k))
    ∧ hasKey (<["script" := Inherit ""]> test_bindings)
        (chooseScriptBodyPart (<["script" := Inherit ""]> test_bindings) "script") = false
    ∧ (∀ name : string,
         is_Some ((<["script" := Inherit ""]> test_bindings) !! name) →
         name ≠ chooseScriptBodyPart (<["script" := Inherit ""]> test_bindings) "script").
Proof. exact (chooseScriptBodyPart_unique (<["script" := Inherit ""]> test_bindings)). Defined.




Lemma multi_script_requires_organization_witness :
  OrganizationID (mkAPI "") = ""
  ∧ ScriptName (mkWorkerRequestParams "" "bar") ≠ ""
  ∧ DeleteWorker (transport := canned_server "{}") (tags := example_tags)
      (decode_script := canned_decoder WorkerScriptResponse_zero)
      (mkAPI "") (mkWorkerRequestParams "" "bar") []
    = ((WorkerScriptResponse_zero, Some errOrganizationRequired), []).
Proof.
  split; [reflexivity|]. split; [discriminate|].
  apply (proj1 (multi_script_requires_organization
                  (transport := canned_server "{}") (tags := example_tags)
                  (marshal := compact_Marshal)
                  (decode_script := canned_decoder WorkerScriptResponse_zero)
                  (decode_list := canned_decoder WorkerListResponse_zero)
                  (decode_route := canned_decoder WorkerRouteResponse_zero)
                  (mkAPI "") [] eq_refl)).
  discriminate.
Defined.

Lemma ListWorkerRoutes_backfill_witness :
  canned_server "{}" [] (mkRequest "GET" "/zones/foo/workers/routes" NoParams []) = ("{}", None)
  ∧ canned_decoder
      (mkWorkerRoutesResponse ok_Response
         [mkWorkerRoute "e7a5" "app1.example.com/*" false "test_script_1";
          mkWorkerRoute "2b5b" "app3.example.com/*" false ""])
      "{}" WorkerRoutesResponse_zero
    = (mkWorkerRoutesResponse ok_Response
         [mkWorkerRoute "e7a5" "app1.example.com/*" false "test_script_1";
          mkWorkerRoute "2b5b" "app3.example.com/*" false ""], None)
  ∧ ∃ r : WorkerRoutesResponse,
      ListWorkerRoutes (transport := canned_server "{}") (tags := example_tags)
        (decode_routes :=
           canned_decoder
             (mkWorkerRoutesResponse ok_Response
                [mkWorkerRoute "e7a5" "app1.example.com/*" false "test_script_1";
                 mkWorkerRoute "2b5b" "app3.example.com/*" false ""]))
        (mkAPI "foo") "foo" []
      = ((r, None), [mkRequest "GET" "/zones/foo/workers/routes" NoParams []])
      ∧ Enabled <$> Routes r = [true; false].
Proof.
  split; [reflexivity|]. split; [reflexivity|].
  destruct (ListWorkerRoutes_backfill
              (transport := canned_server "{}") (tags := example_tags)
              (decode_routes :=
                 canned_decoder
                   (mkWorkerRoutesResponse ok_Response
                      [mkWorkerRoute "e7a5" "app1.example.com/*" false "test_script_1";
                       mkWorkerRoute "2b5b" "app3.example.com/*" false ""]))
              (mkAPI "foo") "foo" [] "{}" _ eq_refl eq_refl)
    as (r & Hres & _ & Hroutes).
  exists r. split; [exact Hres|].
  simpl in Hroutes.
  apply Forall2_cons_inv_r in Hroutes as (r1 & rest1 & (_ & _ & _ & He1) & Hroutes & ->).
  apply Forall2_cons_inv_r in Hroutes as (r2 & rest2 & (_ & _ & _ & He2) & Hroutes & ->).
  apply Forall2_nil_inv_r in Hroutes as ->.
  simpl in *. by rewrite He1, He2.
Defined.

Lemma script_name_selects_account_path_witness :
  "bar" ≠ ""
  ∧ (DeleteWorker (transport := canned_server "{}") (tags := example_tags)
       (decode_script := canned_decoder WorkerScriptResponse_zero)
       (mkAPI "foo") (mkWorkerRequestParams "some-zone" "bar") []).2
    = [mkRequest "DELETE" "/accounts/foo/workers/scripts/bar" NoParams []].
Proof.
  split; [discriminate|].
  apply (proj1 (script_name_selects_account_path
                  (transport := canned_server "{}") (tags := example_tags)
                  (marshal := compact_Marshal)
                  (decode_script := canned_decoder WorkerScriptResponse_zero)
                  (mkAPI "foo") "bar" [] ltac:(discriminate)) "some-zone").
Defined.

Lemma download_returns_raw_script_witness :
  (ScriptName (mkWorkerRequestParams "foo" "") = "" ∨ OrganizationID (mkAPI "") ≠ "")
  ∧ canned_server "addEventListener('fetch', e => {})" []
      (mkRequest "GET" "/zones/foo/workers/script" NoParams [])
    = ("addEventListener('fetch', e => {})", None)
  ∧ ∃ r : WorkerScriptResponse,
      DownloadWorker (transport := canned_server "addEventListener('fetch', e => {})")
        (tags := example_tags) (mkAPI "") (mkWorkerRequestParams "foo" "") []
      = ((r, None), [mkRequest "GET" "/zones/foo/workers/script" NoParams []])
      ∧ script_Script (script_Result r) = "addEventListener('fetch', e => {})"
      ∧ Success (script_Response r) = true
      ∧ r = set_Success true
              (set_Script "addEventListener('fetch', e => {})" WorkerScriptResponse_zero).
Proof.
  split; [by left|]. split; [reflexivity|].
  exact (download_returns_raw_script
           (transport := canned_server "addEventListener('fetch', e => {})")
           (tags := example_tags) (mkAPI "") (mkWorkerRequestParams "foo" "") []
           "addEventListener('fetch', e => {})" (or_introl eq_refl) eq_refl).
Defined.

Lemma single_script_no_validation_witness :
  ScriptName (mkWorkerRequestParams "" "") = ""
  ∧ (DeleteWorker (transport := canned_server "{}") (tags := example_tags)
       (decode_script := canned_decoder WorkerScriptResponse_zero)
       (mkAPI "") (mkWorkerRequestParams "" "") []).2
    = [mkRequest "DELETE" "/zones//workers/script" NoParams []].
Proof.
  split; [reflexivity|].
  apply (proj1 (proj1 (single_script_no_validation
                         (transport := canned_server "{}") (tags := example_tags)
                         (marshal := compact_Marshal)
                         (decode_script := canned_decoder WorkerScriptResponse_zero)
                         (mkAPI "") (mkWorkerRequestParams "" "") [] eq_refl))).
Defined.

(** * Further properties of the code *)

(** ** The inherit binding *)


(** ** The name of the script part *)

(** X2. The script part is named "script" exactly when no binding has that
    name; when a binding is named "script" the name chosen is longer. *)
Theorem scriptBodyPart_is_script (m : gmap string WorkerBinding) :
  (chooseScriptBodyPart m "script" = "script" ↔ m !! "script" = None)
  ∧ (is_Some (m !! "script") →
     (String.length "script" < String.length (chooseScriptBodyPart m "script"))%nat).
Proof.
  destruct (chooseScriptBodyPart_from m "script") as (n & Hres & Hstop & Hkeys).
  assert (hasKey m "script" = true ↔ is_Some (m !! "script")) as Hkey
    by (rewrite hasKey_dom; apply elem_of_dom).
  destruct n as [|n].
  - rewrite Hres. change ("script" +:+ Repeat "_" 0) with "script" in *.
    assert (m !! "script" = None) as Hnone.
    { apply eq_None_not_Some. intros Hsome%Hkey. congruence. }
    split; [done|]. intros Hsome. rewrite Hnone in Hsome. by destruct Hsome.
  - assert (is_Some (m !! "script")) as Hsome.
    { apply Hkey. apply (Hkeys 0%nat). lia. }
    rewrite Hres. split.
    + split.
      * intros Heq%(f_equal String.length).
        rewrite length_string_app, length_Repeat in Heq. simpl in Heq. lia.
      * intros Hnone. rewrite Hnone in Hsome. by destruct Hsome.
    + intros _. rewrite length_string_app, length_Repeat. simpl. lia.
Qed.

(** ** The builder and the bindings it is given *)



(** The first binding of the visit whose [serialize] fails ends the first
    loop with its error. *)
Lemma serialize_bindings_first_error (pre post : list (string * WorkerBinding))
    (entry : string * WorkerBinding) (err : error)
    (metas : list RawMessage) (bodyWriters : list (option bindingBodyWriter)) :
  Forall (λ e, entry_error e = None) pre →
  entry_error entry = Some err →
  (serialize_bindings (pre ++ entry :: post) metas bodyWriters).2 = Some err.
Proof.
  intros Hpre Herr. revert metas bodyWriters.
  induction Hpre as [|[name b] pre Hhead _ IH]; intros metas bodyWriters; simpl.
  - destruct entry as [name b]. unfold entry_error in Herr. simpl in Herr.
    destruct (WorkerBinding_serialize b name) as [[bindingMeta bodyWriter] e].
    simpl in Herr. by subst e.
  - unfold entry_error in Hhead. simpl in Hhead.
    destruct (WorkerBinding_serialize b name) as [[bindingMeta bodyWriter] e].
    simpl in Hhead. subst e. apply IH.
Qed.

(** The first body writer that fails ends the last loop with its error. *)
Lemma run_bodyWriters_first_error (bodyWriters : list (option bindingBodyWriter))
    (good rest : list bindingBodyWriter) (bad : bindingBodyWriter)
    (gparts : list (MIMEHeader * string)) (err : error) (mw : Writer) :
  sound mw →
  omap id bodyWriters = (good ++ bad :: rest)%list →
  write_parts good gparts →
  (∀ mpw : Writer, (bad mpw).2 = Some err) →
  (run_bodyWriters bodyWriters mw).2 = Some err.
Proof.
  intros Hs Hws Hgood Hbad. revert good gparts mw Hs Hws Hgood.
  induction bodyWriters as [|[writer|] ws IH]; intros good gparts mw Hs Hws Hgood;
    simpl in *.
  - by destruct good.
  - destruct good as [|g good].
    + simpl in Hws. injection Hws as -> _.
      specialize (Hbad mw). destruct (bad mw) as [mw1 e]. simpl in Hbad. by subst e.
    + simpl in Hws. injection Hws as -> Hws.
      apply Forall2_cons_inv_l in Hgood as ([header data] & gparts' & Hg & Hgood & ->).
      simpl in Hg. rewrite Hg.
      destruct (write_part_sound header data mw Hs) as (mw1 & -> & Hs1 & _).
      exact (IH good gparts' mw1 Hs1 Hws Hgood).
  - exact (IH good gparts mw Hs Hws Hgood).
Qed.

Section UploadWithBindings.
Context {transport : Transport} {tags : ErrorTags} {marshal : JSONMarshal}.
Context {decode_script : JSONUnmarshal WorkerScriptResponse}.


(** X4. When the [serialize] of a binding fails, and the bindings visited
    before it did not, [formatMultipartBody] returns the error of that
    binding with an empty content type and no body, and
    [UploadWorkerWithBindings] returns the same error, not wrapped, with
    the zero response: it makes no request, with or without a script name,
    whatever the client. *)
Theorem UploadWorkerWithBindings_serialize_error (bnd : string) (order : list string)
    (api : API) (p : WorkerRequestParams) (data : WorkerScriptParams)
    (pre post : list (string * WorkerBinding)) (entry : string * WorkerBinding)
    (err : error) (log : list Request) :
  range_map order (Bindings data) = (pre ++ entry :: post)%list →
  Forall (λ e, entry_error e = None) pre →
  entry_error entry = Some err →
  formatMultipartBody bnd order data = Returns ("", "", Some err)
  ∧ UploadWorkerWithBindings bnd order api p data log
    = (Returns (WorkerScriptResponse_zero, Some err), log).
Proof.
  intros Hentries Hpre Herr.
  assert (formatMultipartBody bnd order data = Returns ("", "", Some err)) as Hbody.
  { unfold formatMultipartBody, formatMultipartBodyOn. rewrite Hentries.
    pose proof (serialize_bindings_first_error pre post entry err [] [] Hpre Herr) as Hloop.
    destruct (serialize_bindings (pre ++ entry :: post) [] []) as [[metas bodyWriters] e].
    simpl in Hloop. by subst e. }
  split; [exact Hbody|]. unfold UploadWorkerWithBindings. by rewrite Hbody.
Qed.

(** X5. When the bindings serialize and, of the body writers they supplied,
    one fails after the earlier ones have each written their part,
    [formatMultipartBody] returns the error of that writer with an empty
    content type and no body (the parts written so far are not returned),
    and [UploadWorkerWithBindings] returns that error with the zero
    response and makes no request. *)
Theorem UploadWorkerWithBindings_writer_error (bnd : string) (order : list string)
    (api : API) (p : WorkerRequestParams) (data : WorkerScriptParams)
    (good rest : list bindingBodyWriter) (bad : bindingBodyWriter)
    (gparts : list (MIMEHeader * string)) (err : error) (log : list Request) :
  let entries := range_map order (Bindings data) in
  Forall (λ e, entry_error e = None) entries →
  omap entry_writer entries = (good ++ bad :: rest)%list →
  write_parts good gparts →
  (∀ mpw : Writer, (bad mpw).2 = Some err) →
  formatMultipartBody bnd order data = Returns ("", "", Some err)
  ∧ UploadWorkerWithBindings bnd order api p data log
    = (Returns (WorkerScriptResponse_zero, Some err), log).
Proof.
  intros entries Hser Hwriters Hgood Hbad.
  assert (formatMultipartBody bnd order data = Returns ("", "", Some err)) as Hbody.
  { destruct (formatMultipartBody_after_script bnd order data Hser)
      as (mw & Hs & _ & _ & _ & ->).
    fold entries. rewrite <- omap_id_fmap in Hwriters.
    pose proof (run_bodyWriters_first_error _ good rest bad gparts err mw
                  Hs Hwriters Hgood Hbad) as Hrun.
    destruct (run_bodyWriters (entry_writer <$> entries) mw) as [mw1 e].
    simpl in Hrun. by subst e. }
  split; [exact Hbody|]. unfold UploadWorkerWithBindings. by rewrite Hbody.
Qed.


End UploadWithBindings.

(** ** Routes *)

Ltac unfold_net :=
  unfold mbind, Net_bind, mret, Net_ret, makeRequest, makeRequestWithHeaders.

Section Routes.
Context {transport : Transport} {tags : ErrorTags}.
Context {decode_route : JSONUnmarshal WorkerRouteResponse}.
Context {decode_routes : JSONUnmarshal WorkerRoutesResponse}.

(** X7. [DeleteWorkerRoute] takes no account of the mode: for every client
    it makes one request, DELETE on the "filters" path of the zone with the
    route identifier, and its outcome is the same on a client with an
    account identifier and on one without. *)
Theorem DeleteWorkerRoute_mode_agnostic (api api' : API) (zoneID routeID : string)
    (log : list Request) :
  (DeleteWorkerRoute api zoneID routeID log).2
  = (log ++ [mkRequest "DELETE" ("/zones/" +:+ zoneID +:+ "/workers/filters/" +:+ routeID)
               NoParams []])%list
  ∧ DeleteWorkerRoute api zoneID routeID log = DeleteWorkerRoute api' zoneID routeID log.
Proof.
  split; [|done]. unfold DeleteWorkerRoute. run_operation.
Qed.

(** X8. [CreateWorkerRoute] on a route without a script, or on a client with
    an account identifier, makes one request: POST with the route as it was
    given, on the "routes" path of the zone when the route has a script and
    on the "filters" path when it has none, also when the client has an
    account identifier.  When the answer decodes, the decoded response is
    returned as it is. *)
Theorem CreateWorkerRoute_routing (api : API) (zoneID : string) (route : WorkerRoute)
    (log : list Request) :
  let pathComponent := if decide (route_Script route ≠ "") then "routes" else "filters" in
  let req := mkRequest "POST" ("/zones/" +:+ zoneID +:+ "/workers/" +:+ pathComponent)
                       (RouteParams route) [] in
  route_Script route = "" ∨ OrganizationID api ≠ "" →
  (CreateWorkerRoute api zoneID route log).2 = (log ++ [req])%list
  ∧ ∀ (res : string) (r : WorkerRouteResponse),
      roundTrip log req = (res, None) →
      json_Unmarshal res WorkerRouteResponse_zero = (r, None) →
      CreateWorkerRoute api zoneID route log = ((r, None), (log ++ [req])%list).
Proof.
  intros pathComponent req Hmode. unfold req, pathComponent. clear req pathComponent.
  unfold CreateWorkerRoute.
  destruct (decide (route_Script route ≠ "")) as [Hscript|Hscript].
  - destruct Hmode as [Hempty|Horg]; [done|].
    destruct (decide (OrganizationID api = "")) as [?|_]; [done|].
    split; [run_operation|]. intros res r Hres Hdec. unfold_net. by rewrite Hres, Hdec.
  - split; [run_operation|]. intros res r Hres Hdec. unfold_net. by rewrite Hres, Hdec.
Qed.

(** X9. [UpdateWorkerRoute] routes the same way as the creation, with PUT
    and the route identifier at the end of the path. *)
Theorem UpdateWorkerRoute_routing (api : API) (zoneID routeID : string)
    (route : WorkerRoute) (log : list Request) :
  let pathComponent := if decide (route_Script route ≠ "") then "routes" else "filters" in
  let req := mkRequest "PUT"
               ("/zones/" +:+ zoneID +:+ "/workers/" +:+ pathComponent +:+ "/" +:+ routeID)
               (RouteParams route) [] in
  route_Script route = "" ∨ OrganizationID api ≠ "" →
  (UpdateWorkerRoute api zoneID routeID route log).2 = (log ++ [req])%list
  ∧ ∀ (res : string) (r : WorkerRouteResponse),
      roundTrip log req = (res, None) →
      json_Unmarshal res WorkerRouteResponse_zero = (r, None) →
      UpdateWorkerRoute api zoneID routeID route log = ((r, None), (log ++ [req])%list).
Proof.
  intros pathComponent req Hmode. unfold req, pathComponent. clear req pathComponent.
  unfold UpdateWorkerRoute.
  destruct (decide (route_Script route ≠ "")) as [Hscript|Hscript].
  - destruct Hmode as [Hempty|Horg]; [done|].
    destruct (decide (OrganizationID api = "")) as [?|_]; [done|].
    split; [run_operation|]. intros res r Hres Hdec. unfold_net. by rewrite Hres, Hdec.
  - split; [run_operation|]. intros res r Hres Hdec. unfold_net. by rewrite Hres, Hdec.
Qed.

Lemma ListWorkerRoutes_request (api : API) (zoneID : string) (log : list Request) :
  (ListWorkerRoutes api zoneID log).2
  = (log ++ [mkRequest "GET"
               ("/zones/" +:+ zoneID +:+ "/workers/"
                +:+ (if decide (OrganizationID api ≠ "") then "routes" else "filters"))
               NoParams []])%list.
Proof. unfold ListWorkerRoutes. run_operation. Qed.

(** X10. The creation and the listing choose their path by different tests,
    the creation by the script of the route and the listing by the account
    identifier of the client.  On a client with an account identifier, a
    route without a script is created on the "filters" path of the zone,
    and the listing of the same zone reads the "routes" path. *)
Theorem create_and_list_paths_differ (api : API) (zoneID : string) (route : WorkerRoute)
    (log log' : list Request) :
  OrganizationID api ≠ "" →
  route_Script route = "" →
  (CreateWorkerRoute api zoneID route log).2
  = (log ++ [mkRequest "POST" ("/zones/" +:+ zoneID +:+ "/workers/filters")
               (RouteParams route) []])%list
  ∧ (ListWorkerRoutes api zoneID log').2
    = (log' ++ [mkRequest "GET" ("/zones/" +:+ zoneID +:+ "/workers/routes")
                  NoParams []])%list
  ∧ "/zones/" +:+ zoneID +:+ "/workers/filters" ≠ "/zones/" +:+ zoneID +:+ "/workers/routes".
Proof.
  intros Horg Hscript. split; [|split].
  - unfold CreateWorkerRoute. rewrite Hscript.
    destruct (decide ("" ≠ "")) as [Hne|_]; [by destruct Hne|]. run_operation.
  - rewrite ListWorkerRoutes_request.
    by destruct (decide (OrganizationID api ≠ "")).
  - intros Heq. apply String.app_inj, String.app_inj in Heq. discriminate.
Qed.

(** X11. The routes that [ListWorkerRoutes] returns always satisfy its
    invariant (a route with a script is enabled), and the listing changes
    nothing in an answer that satisfies it already: it returns the decoded
    response as it is. *)
Theorem ListWorkerRoutes_normal_form (api : API) (zoneID : string) (log : list Request) :
  (∀ (r : WorkerRoutesResponse),
     (ListWorkerRoutes api zoneID log).1 = (r, None) → Forall backfilled (Routes r))
  ∧ ∀ (res : string) (supplied : WorkerRoutesResponse),
      roundTrip log
        (mkRequest "GET"
           ("/zones/" +:+ zoneID +:+ "/workers/"
            +:+ (if decide (OrganizationID api ≠ "") then "routes" else "filters"))
           NoParams []) = (res, None) →
      json_Unmarshal res WorkerRoutesResponse_zero = (supplied, None) →
      Forall backfilled (Routes supplied) →
      (ListWorkerRoutes api zoneID log).1 = (supplied, None).
Proof.
  split.
  - intros r. unfold ListWorkerRoutes. unfold_net.
    destruct (roundTrip _ _) as [res [e|]]; simpl; [done|].
    destruct (json_Unmarshal res WorkerRoutesResponse_zero) as [r0 [e|]]; simpl; [done|].
    intros [= <-]. simpl. apply Forall_fmap, Forall_forall. intros route _.
    unfold backfilled, backfill_Enabled. simpl.
    by destruct (decide (route_Script route ≠ "")).
  - intros res supplied Hres Hdec Hinv. unfold ListWorkerRoutes. unfold_net.
    rewrite Hres, Hdec. simpl. f_equal. destruct supplied as [response routes].
    simpl in *. f_equal. clear Hdec.
    induction Hinv as [|route routes Hroute _ IH]; [done|].
    rewrite fmap_cons. f_equal; [|exact IH].
    unfold backfill_Enabled, backfilled in *.
    destruct (decide (route_Script route ≠ "")) as [Hscript|_]; [|done].
    destruct route as [id pattern enabled script]. simpl in *.
    unfold set_Enabled. simpl. by rewrite (Hroute Hscript).
Qed.

End Routes.

(** ** Outcomes of the operations *)

Section Outcomes.
Context {transport : Transport} {tags : ErrorTags} {marshal : JSONMarshal}.
Context {decode_script : JSONUnmarshal WorkerScriptResponse}.
Context {decode_list : JSONUnmarshal WorkerListResponse}.
Context {decode_route : JSONUnmarshal WorkerRouteResponse}.
Context {decode_routes : JSONUnmarshal WorkerRoutesResponse}.

(** X12. When the transport fails with [e], every operation that made its
    request returns the zero value of its response and the error [e]
    wrapped with the tag [errMakeRequestError], after exactly one request;
    the only other outcome is the precondition error, with no request.  No
    operation tries a second request. *)
Theorem transport_failure_is_wrapped (api : API) (log : list Request) (e : error) :
  (∀ req : Request, (roundTrip log req).2 = Some e) →
  let failed (A : Type) (zero : A) (out : (A * option error) * list Request) :=
    out = ((zero, Some errOrganizationRequired), log)
    ∨ ∃ req : Request,
        out = ((zero, Some (errors_Wrap e errMakeRequestError)), (log ++ [req])%list) in
  (∀ p, failed _ WorkerScriptResponse_zero (DeleteWorker api p log))
  ∧ (∀ p, failed _ WorkerScriptResponse_zero (DownloadWorker api p log))
  ∧ (∀ p data, failed _ WorkerScriptResponse_zero (UploadWorker api p data log))
  ∧ failed _ WorkerListResponse_zero (ListWorkerScripts api log)
  ∧ (∀ zoneID route, failed _ WorkerRouteResponse_zero (CreateWorkerRoute api zoneID route log))
  ∧ (∀ zoneID routeID,
       failed _ WorkerRouteResponse_zero (DeleteWorkerRoute api zoneID routeID log))
  ∧ (∀ zoneID routeID route,
       failed _ WorkerRouteResponse_zero (UpdateWorkerRoute api zoneID routeID route log))
  ∧ (∀ zoneID, failed _ WorkerRoutesResponse_zero (ListWorkerRoutes api zoneID log)).
Proof.
  intros Hfail failed. unfold failed. clear failed.
  assert (∀ req : Request, ∃ res : string, roundTrip log req = (res, Some e)) as Hrt.
  { intros req. specialize (Hfail req). destruct (roundTrip log req) as [res err].
    simpl in Hfail. subst err. by eexists. }
  repeat split; intros;
    unfold DeleteWorker, deleteWorkerWithName, DownloadWorker, downloadWorkerWithName,
      UploadWorker, multiScriptUpload, singleScriptUpload, ListWorkerScripts,
      CreateWorkerRoute, DeleteWorkerRoute, UpdateWorkerRoute, ListWorkerRoutes;
    unfold_net;
    repeat match goal with
      | |- context [decide ?P] => destruct (decide P); simpl
      end;
    try (by left);
    match goal with
    | |- context [roundTrip log ?req] =>
        destruct (Hrt req) as [res ->]; simpl; right; by eexists
    end.
Qed.

(** X13. When the answer to a delete or an upload does not decode, the call
    returns the error of the decoder wrapped with the tag
    [errUnmarshalError] together with the value the decoder left behind,
    not the zero value. *)
Theorem decode_failure_keeps_value (api : API) (log : list Request) (res : string)
    (left_behind : WorkerScriptResponse) (e : error) :
  (∀ req : Request, roundTrip log req = (res, None)) →
  json_Unmarshal res WorkerScriptResponse_zero = (left_behind, Some e) →
  let failed (out : (WorkerScriptResponse * option error) * list Request) :=
    out = ((WorkerScriptResponse_zero, Some errOrganizationRequired), log)
    ∨ ∃ req : Request,
        out = ((left_behind, Some (errors_Wrap e errUnmarshalError)), (log ++ [req])%list) in
  (∀ p, failed (DeleteWorker api p log))
  ∧ (∀ p data, failed (UploadWorker api p data log))
  ∧ (∀ zoneId contentType body, failed (singleScriptUpload api zoneId contentType body log))
  ∧ (∀ scriptName contentType body,
       failed (multiScriptUpload api scriptName contentType body log)).
Proof.
  intros Hrt Hdec failed. unfold failed. clear failed.
  repeat split; intros;
    unfold DeleteWorker, deleteWorkerWithName, UploadWorker, multiScriptUpload,
      singleScriptUpload;
    unfold_net;
    repeat match goal with
      | |- context [decide ?P] => destruct (decide P); simpl
      end;
    try (by left);
    rewrite Hrt; simpl; rewrite Hdec; simpl; right; by eexists.
Qed.

(** X14. When the answer to the list of scripts or to a route operation
    does not decode, the call returns the wrapped error of the decoder with
    the zero value of the response: what the decoder left behind is
    dropped. *)
Theorem decode_failure_drops_value (api : API) (log : list Request) (res : string)
    (scripts : WorkerListResponse) (route_left : WorkerRouteResponse)
    (routes_left : WorkerRoutesResponse) (e : error) :
  (∀ req : Request, roundTrip log req = (res, None)) →
  json_Unmarshal res WorkerListResponse_zero = (scripts, Some e) →
  json_Unmarshal res WorkerRouteResponse_zero = (route_left, Some e) →
  json_Unmarshal res WorkerRoutesResponse_zero = (routes_left, Some e) →
  let failed (A : Type) (zero : A) (out : (A * option error) * list Request) :=
    out = ((zero, Some errOrganizationRequired), log)
    ∨ ∃ req : Request,
        out = ((zero, Some (errors_Wrap e errUnmarshalError)), (log ++ [req])%list) in
  failed _ WorkerListResponse_zero (ListWorkerScripts api log)
  ∧ (∀ zoneID route, failed _ WorkerRouteResponse_zero (CreateWorkerRoute api zoneID route log))
  ∧ (∀ zoneID routeID,
       failed _ WorkerRouteResponse_zero (DeleteWorkerRoute api zoneID routeID log))
  ∧ (∀ zoneID routeID route,
       failed _ WorkerRouteResponse_zero (UpdateWorkerRoute api zoneID routeID route log))
  ∧ (∀ zoneID, failed _ WorkerRoutesResponse_zero (ListWorkerRoutes api zoneID log)).
Proof.
  intros Hrt Hscripts Hroute Hroutes failed. unfold failed. clear failed.
  repeat split; intros;
    unfold ListWorkerScripts, CreateWorkerRoute, DeleteWorkerRoute, UpdateWorkerRoute,
      ListWorkerRoutes;
    unfold_net;
    repeat match goal with
      | |- context [decide ?P] => destruct (decide P); simpl
      end;
    try (by left);
    rewrite Hrt; simpl; rewrite ?Hscripts, ?Hroute, ?Hroutes; simpl; right; by eexists.
Qed.

(** X15. On a client with an account identifier, [ListWorkerScripts] makes
    one request, GET on [/accounts/{account}/workers/scripts], and when the
    answer decodes it returns the decoded list as it is. *)
Theorem ListWorkerScripts_lists (api : API) (log : list Request) :
  OrganizationID api ≠ "" →
  let req := mkRequest "GET" ("/accounts/" +:+ OrganizationID api +:+ "/workers/scripts")
                       NoParams [] in
  (ListWorkerScripts api log).2 = (log ++ [req])%list
  ∧ ∀ (res : string) (r : WorkerListResponse),
      roundTrip log req = (res, None) →
      json_Unmarshal res WorkerListResponse_zero = (r, None) →
      ListWorkerScripts api log = ((r, None), (log ++ [req])%list).
Proof.
  intros Horg req. unfold req. clear req. unfold ListWorkerScripts.
  destruct (decide (OrganizationID api = "")) as [?|_]; [done|].
  split; [run_operation|]. intros res r Hres Hdec. unfold_net. by rewrite Hres, Hdec.
Qed.

(** X16. The operations of the single-script family do not read the client:
    a delete, download or upload with an empty script name, and the
    creation or update of a route without a script, have the same outcome
    on a client with an account identifier and on one without. *)
Theorem single_script_ignores_account (api api' : API) (log : list Request) :
  (∀ p : WorkerRequestParams, ScriptName p = "" →
     DeleteWorker api p log = DeleteWorker api' p log
     ∧ DownloadWorker api p log = DownloadWorker api' p log
     ∧ (∀ data : string, UploadWorker api p data log = UploadWorker api' p data log)
     ∧ (∀ (bnd : string) (order : list string) (data : WorkerScriptParams),
          UploadWorkerWithBindings bnd order api p data log
          = UploadWorkerWithBindings bnd order api' p data log))
  ∧ (∀ (zoneID routeID : string) (route : WorkerRoute), route_Script route = "" →
       CreateWorkerRoute api zoneID route log = CreateWorkerRoute api' zoneID route log
       ∧ UpdateWorkerRoute api zoneID routeID route log
         = UpdateWorkerRoute api' zoneID routeID route log).
Proof.
  split.
  - intros p Hname.
    unfold DeleteWorker, DownloadWorker, UploadWorker, UploadWorkerWithBindings.
    rewrite Hname. destruct (decide ("" ≠ "")) as [Hne|_]; [by destruct Hne|].
    split; [done|]. split; [done|]. split; [done|]. intros bnd order data.
    by destruct (formatMultipartBody bnd order data) as [[[contentType body] [err|]]|].
  - intros zoneID routeID route Hscript. unfold CreateWorkerRoute, UpdateWorkerRoute.
    rewrite Hscript. by destruct (decide ("" ≠ "")) as [Hne|_]; [destruct Hne|].
Qed.

(** X17. Every operation keeps the requests made before it, in their order,
    and adds at most one request to them. *)
Theorem at_most_one_request (api : API) (log : list Request) :
  let one_more (after : list Request) :=
    ∃ new : list Request, after = (log ++ new)%list ∧ (length new ≤ 1)%nat in
  (∀ p, one_more (DeleteWorker api p log).2)
  ∧ (∀ p, one_more (DownloadWorker api p log).2)
  ∧ (∀ p data, one_more (UploadWorker api p data log).2)
  ∧ (∀ bnd order p data, one_more (UploadWorkerWithBindings bnd order api p data log).2)
  ∧ one_more (ListWorkerScripts api log).2
  ∧ (∀ zoneID route, one_more (CreateWorkerRoute api zoneID route log).2)
  ∧ (∀ zoneID routeID, one_more (DeleteWorkerRoute api zoneID routeID log).2)
  ∧ (∀ zoneID routeID route, one_more (UpdateWorkerRoute api zoneID routeID route log).2)
  ∧ (∀ zoneID, one_more (ListWorkerRoutes api zoneID log).2).
Proof.
  intros one_more. unfold one_more. clear one_more.
  assert (∀ after : list Request,
            after = log ∨ (∃ req : Request, after = (log ++ [req])%list) →
            ∃ new : list Request, after = (log ++ new)%list ∧ (length new ≤ 1)%nat) as Hone.
  { intros after [-> | [req ->]].
    - exists []. split; [by rewrite app_nil_r | simpl; lia].
    - exists [req]. split; [done | simpl; lia]. }
  repeat split; intros; apply Hone;
    unfold DeleteWorker, deleteWorkerWithName, DownloadWorker, downloadWorkerWithName,
      UploadWorker, UploadWorkerWithBindings, multiScriptUpload, singleScriptUpload,
      ListWorkerScripts, CreateWorkerRoute, DeleteWorkerRoute, UpdateWorkerRoute,
      ListWorkerRoutes;
    unfold_net;
    repeat match goal with
      | |- context [formatMultipartBody ?b ?o ?d] =>
          destruct (formatMultipartBody b o d) as [[[? ?] [?|]]|]; simpl
      | |- context [decide ?P] => destruct (decide P); simpl
      | |- context [roundTrip ?l ?req] => destruct (roundTrip l req) as [? [?|]]; simpl
      | |- context [json_Unmarshal ?res ?r] =>
          destruct (json_Unmarshal res r) as [? [?|]]; simpl
      end;
    first [by left | right; by eexists].
Qed.

End Outcomes.

(** ** The further properties at concrete inputs *)


Lemma scriptBodyPart_is_script_witness :
  is_Some ((<["script" := Inherit ""]> test_bindings) !! "script")
  ∧ (String.length "script"
     < String.length (chooseScriptBodyPart (<["script" := Inherit ""]> test_bindings)
                        "script"))%nat.
Proof.
  assert (is_Some ((<["script" := Inherit ""]> test_bindings) !! "script")) as Hsome
    by (rewrite lookup_insert_eq; by eexists).
  split; [exact Hsome|].
  exact (proj2 (scriptBodyPart_is_script (<["script" := Inherit ""]> test_bindings)) Hsome).
Defined.


Lemma UploadWorkerWithBindings_serialize_error_witness :
  range_map ["b1"; "bad"] bindings_with_failure
  = ([("b1", Inherit "")]
     ++ ("bad", mkWorkerBinding (mkFailingBinding (errors_New "unencodable"))) :: [])%list
  ∧ Forall (λ e, entry_error e = None) [("b1", Inherit "")]
  ∧ entry_error ("bad", mkWorkerBinding (mkFailingBinding (errors_New "unencodable")))
    = Some (errors_New "unencodable")
  ∧ UploadWorkerWithBindings
      (transport := canned_server "{}") (tags := example_tags) (marshal := compact_Marshal)
      (decode_script := canned_decoder WorkerScriptResponse_zero)
      "boundary" ["b1"; "bad"] (mkAPI "foo") (mkWorkerRequestParams "zone" "")
      (mkWorkerScriptParams "S" bindings_with_failure) []
    = (Returns (WorkerScriptResponse_zero, Some (errors_New "unencodable")), []).
Proof.
  assert (range_map ["b1"; "bad"] bindings_with_failure
          = ([("b1", Inherit "")]
             ++ ("bad", mkWorkerBinding (mkFailingBinding (errors_New "unencodable")))
                :: [])%list) as Hentries by (vm_compute; reflexivity).
  assert (Forall (λ e, entry_error e = None) [("b1", Inherit "")]) as Hpre
    by (repeat constructor).
  split; [exact Hentries|]. split; [exact Hpre|]. split; [reflexivity|].
  exact (proj2 (UploadWorkerWithBindings_serialize_error
                  (transport := canned_server "{}") (tags := example_tags)
                  (marshal := compact_Marshal)
                  (decode_script := canned_decoder WorkerScriptResponse_zero)
                  "boundary" ["b1"; "bad"] (mkAPI "foo") (mkWorkerRequestParams "zone" "")
                  (mkWorkerScriptParams "S" bindings_with_failure)
                  [("b1", Inherit "")] []
                  ("bad", mkWorkerBinding (mkFailingBinding (errors_New "unencodable")))
                  (errors_New "unencodable") [] Hentries Hpre eq_refl)).
Defined.

Lemma UploadWorkerWithBindings_writer_error_witness :
  Forall (λ e, entry_error e = None) (range_map ["notes"; "blob"] bindings_with_broken_part)
  ∧ omap entry_writer (range_map ["notes"; "blob"] bindings_with_broken_part)
    = ([write_part (part_header "notes" "text/plain") "hello"]
       ++ (λ mpw, (mpw, Some (errors_New "read failed"))) :: [])%list
  ∧ write_parts [write_part (part_header "notes" "text/plain") "hello"]
      [(part_header "notes" "text/plain", "hello")]
  ∧ (∀ mpw : Writer, ((λ mpw, (mpw, Some (errors_New "read failed"))) mpw).2
                     = Some (errors_New "read failed"))
  ∧ UploadWorkerWithBindings
      (transport := canned_server "{}") (tags := example_tags) (marshal := compact_Marshal)
      (decode_script := canned_decoder WorkerScriptResponse_zero)
      "boundary" ["notes"; "blob"] (mkAPI "foo") (mkWorkerRequestParams "" "bar")
      (mkWorkerScriptParams "S" bindings_with_broken_part) []
    = (Returns (WorkerScriptResponse_zero, Some (errors_New "read failed")), []).
Proof.
  assert (Forall (λ e, entry_error e = None)
            (range_map ["notes"; "blob"] bindings_with_broken_part)) as Hser
    by (vm_compute; repeat constructor).
  assert (omap entry_writer (range_map ["notes"; "blob"] bindings_with_broken_part)
          = ([write_part (part_header "notes" "text/plain") "hello"]
             ++ (λ mpw, (mpw, Some (errors_New "read failed"))) :: [])%list) as Hwriters
    by reflexivity.
  assert (write_parts [write_part (part_header "notes" "text/plain") "hello"]
            [(part_header "notes" "text/plain", "hello")]) as Hgood
    by (repeat constructor).
  split; [exact Hser|]. split; [exact Hwriters|]. split; [exact Hgood|].
  split; [reflexivity|].
  exact (proj2 (UploadWorkerWithBindings_writer_error
                  (transport := canned_server "{}") (tags := example_tags)
                  (marshal := compact_Marshal)
                  (decode_script := canned_decoder WorkerScriptResponse_zero)
                  "boundary" ["notes"; "blob"] (mkAPI "foo") (mkWorkerRequestParams "" "bar")
                  (mkWorkerScriptParams "S" bindings_with_broken_part)
                  [write_part (part_header "notes" "text/plain") "hello"] []
                  (λ mpw, (mpw, Some (errors_New "read failed")))
                  [(part_header "notes" "text/plain", "hello")]
                  (errors_New "read failed") [] Hser Hwriters Hgood
                  (λ _, eq_refl))).
Defined.

Lemma CreateWorkerRoute_routing_witness :
  (route_Script (mkWorkerRoute "" "app1.example.com/*" true "") = ""
   ∨ OrganizationID (mkAPI "foo") ≠ "")
  ∧ (CreateWorkerRoute (transport := canned_server "{}") (tags := example_tags)
       (decode_route := canned_decoder WorkerRouteResponse_zero)
       (mkAPI "foo") "foo" (mkWorkerRoute "" "app1.example.com/*" true "") []).2
    = [mkRequest "POST" "/zones/foo/workers/filters"
         (RouteParams (mkWorkerRoute "" "app1.example.com/*" true "")) []].
Proof.
  split; [by left|].
  exact (proj1 (CreateWorkerRoute_routing
                  (transport := canned_server "{}") (tags := example_tags)
                  (decode_route := canned_decoder WorkerRouteResponse_zero)
                  (mkAPI "foo") "foo" (mkWorkerRoute "" "app1.example.com/*" true "") []
                  (or_introl eq_refl))).
Defined.

Lemma UpdateWorkerRoute_routing_witness :
  (route_Script (mkWorkerRoute "" "app3.example.com/*" false "test_script_1") = ""
   ∨ OrganizationID (mkAPI "foo") ≠ "")
  ∧ (UpdateWorkerRoute (transport := canned_server "{}") (tags := example_tags)
       (decode_route := canned_decoder WorkerRouteResponse_zero)
       (mkAPI "foo") "foo" "e7a5"
       (mkWorkerRoute "" "app3.example.com/*" false "test_script_1") []).2
    = [mkRequest "PUT" "/zones/foo/workers/routes/e7a5"
         (RouteParams (mkWorkerRoute "" "app3.example.com/*" false "test_script_1")) []].
Proof.
  assert (OrganizationID (mkAPI "foo") ≠ "") as Horg by discriminate.
  split; [by right|].
  exact (proj1 (UpdateWorkerRoute_routing
                  (transport := canned_server "{}") (tags := example_tags)
                  (decode_route := canned_decoder WorkerRouteResponse_zero)
                  (mkAPI "foo") "foo" "e7a5"
                  (mkWorkerRoute "" "app3.example.com/*" false "test_script_1") []
                  (or_intror Horg))).
Defined.

Lemma create_and_list_paths_differ_witness :
  OrganizationID (mkAPI "foo") ≠ ""
  ∧ route_Script (mkWorkerRoute "" "app1.example.com/*" true "") = ""
  ∧ (CreateWorkerRoute (transport := canned_server "{}") (tags := example_tags)
       (decode_route := canned_decoder WorkerRouteResponse_zero)
       (mkAPI "foo") "foo" (mkWorkerRoute "" "app1.example.com/*" true "") []).2
    = [mkRequest "POST" "/zones/foo/workers/filters"
         (RouteParams (mkWorkerRoute "" "app1.example.com/*" true "")) []]
  ∧ (ListWorkerRoutes (transport := canned_server "{}") (tags := example_tags)
       (decode_routes := canned_decoder WorkerRoutesResponse_zero)
       (mkAPI "foo") "foo" []).2
    = [mkRequest "GET" "/zones/foo/workers/routes" NoParams []].
Proof.
  assert (OrganizationID (mkAPI "foo") ≠ "") as Horg by discriminate.
  split; [exact Horg|]. split; [reflexivity|].
  destruct (create_and_list_paths_differ
              (transport := canned_server "{}") (tags := example_tags)
              (decode_route := canned_decoder WorkerRouteResponse_zero)
              (decode_routes := canned_decoder WorkerRoutesResponse_zero)
              (mkAPI "foo") "foo" (mkWorkerRoute "" "app1.example.com/*" true "") [] []
              Horg eq_refl) as (Hcreate & Hlist & _).
  split; [exact Hcreate | exact Hlist].
Defined.

Lemma ListWorkerRoutes_normal_form_witness :
  Forall backfilled [mkWorkerRoute "e7a5" "app1.example.com/*" true "test_script_1";
                     mkWorkerRoute "2b5b" "app3.example.com/*" false ""]
  ∧ (ListWorkerRoutes (transport := canned_server "{}") (tags := example_tags)
       (decode_routes :=
          canned_decoder
            (mkWorkerRoutesResponse ok_Response
               [mkWorkerRoute "e7a5" "app1.example.com/*" true "test_script_1";
                mkWorkerRoute "2b5b" "app3.example.com/*" false ""]))
       (mkAPI "foo") "foo" []).1
    = (mkWorkerRoutesResponse ok_Response
         [mkWorkerRoute "e7a5" "app1.example.com/*" true "test_script_1";
          mkWorkerRoute "2b5b" "app3.example.com/*" false ""], None).
Proof.
  assert (Forall backfilled
            [mkWorkerRoute "e7a5" "app1.example.com/*" true "test_script_1";
             mkWorkerRoute "2b5b" "app3.example.com/*" false ""]) as Hinv.
  { repeat constructor. intros Hscript. by destruct Hscript. }
  split; [exact Hinv|].
  exact (proj2 (ListWorkerRoutes_normal_form
                  (transport := canned_server "{}") (tags := example_tags)
                  (decode_routes :=
                     canned_decoder
                       (mkWorkerRoutesResponse ok_Response
                          [mkWorkerRoute "e7a5" "app1.example.com/*" true "test_script_1";
                           mkWorkerRoute "2b5b" "app3.example.com/*" false ""]))
                  (mkAPI "foo") "foo" []) "{}" _ eq_refl eq_refl Hinv).
Defined.

Lemma transport_failure_is_wrapped_witness :
  (∀ req : Request, (failing_server (errors_New "connection refused") [] req).2
                    = Some (errors_New "connection refused"))
  ∧ (DownloadWorker (transport := failing_server (errors_New "connection refused"))
       (tags := example_tags) (mkAPI "") (mkWorkerRequestParams "foo" "") []
     = ((WorkerScriptResponse_zero, Some errOrganizationRequired), [])
     ∨ ∃ req : Request,
         DownloadWorker (transport := failing_server (errors_New "connection refused"))
           (tags := example_tags) (mkAPI "") (mkWorkerRequestParams "foo" "") []
         = ((WorkerScriptResponse_zero,
             Some (errors_Wrap (errors_New "connection refused") "request failed")), [req])).
Proof.
  split; [reflexivity|].
  destruct (transport_failure_is_wrapped
              (transport := failing_server (errors_New "connection refused"))
              (tags := example_tags)
              (decode_script := canned_decoder WorkerScriptResponse_zero)
              (decode_list := canned_decoder WorkerListResponse_zero)
              (decode_route := canned_decoder WorkerRouteResponse_zero)
              (decode_routes := canned_decoder WorkerRoutesResponse_zero)
              (mkAPI "") [] (errors_New "connection refused") (λ _, eq_refl))
    as (_ & Hdownload & _).
  exact (Hdownload (mkWorkerRequestParams "foo" "")).
Defined.

Lemma decode_failure_keeps_value_witness :
  (∀ req : Request, canned_server "<html>" [] req = ("<html>", None))
  ∧ failing_decoder (set_Script "partial" WorkerScriptResponse_zero)
      (errors_New "invalid character") "<html>" WorkerScriptResponse_zero
    = (set_Script "partial" WorkerScriptResponse_zero, Some (errors_New "invalid character"))
  ∧ (DeleteWorker (transport := canned_server "<html>") (tags := example_tags)
       (decode_script :=
          failing_decoder (set_Script "partial" WorkerScriptResponse_zero)
            (errors_New "invalid character"))
       (mkAPI "") (mkWorkerRequestParams "foo" "") []
     = ((WorkerScriptResponse_zero, Some errOrganizationRequired), [])
     ∨ ∃ req : Request,
         DeleteWorker (transport := canned_server "<html>") (tags := example_tags)
           (decode_script :=
              failing_decoder (set_Script "partial" WorkerScriptResponse_zero)
                (errors_New "invalid character"))
           (mkAPI "") (mkWorkerRequestParams "foo" "") []
         = ((set_Script "partial" WorkerScriptResponse_zero,
             Some (errors_Wrap (errors_New "invalid character") "unmarshal failed")),
            [req])).
Proof.
  split; [reflexivity|]. split; [reflexivity|].
  destruct (decode_failure_keeps_value
              (transport := canned_server "<html>") (tags := example_tags)
              (decode_script :=
                 failing_decoder (set_Script "partial" WorkerScriptResponse_zero)
                   (errors_New "invalid character"))
              (mkAPI "") [] "<html>" (set_Script "partial" WorkerScriptResponse_zero)
              (errors_New "invalid character") (λ _, eq_refl) eq_refl)
    as (Hdelete & _).
  exact (Hdelete (mkWorkerRequestParams "foo" "")).
Defined.

Lemma decode_failure_drops_value_witness :
  (∀ req : Request, canned_server "<html>" [] req = ("<html>", None))
  ∧ (ListWorkerRoutes (transport := canned_server "<html>") (tags := example_tags)
       (decode_routes :=
          failing_decoder
            (mkWorkerRoutesResponse ok_Response [mkWorkerRoute "e7a5" "p" true ""])
            (errors_New "invalid character"))
       (mkAPI "") "foo" []
     = ((WorkerRoutesResponse_zero, Some errOrganizationRequired), [])
     ∨ ∃ req : Request,
         ListWorkerRoutes (transport := canned_server "<html>") (tags := example_tags)
           (decode_routes :=
              failing_decoder
                (mkWorkerRoutesResponse ok_Response [mkWorkerRoute "e7a5" "p" true ""])
                (errors_New "invalid character"))
           (mkAPI "") "foo" []
         = ((WorkerRoutesResponse_zero,
             Some (errors_Wrap (errors_New "invalid character") "unmarshal failed")),
            [req])).
Proof.
  split; [reflexivity|].
  destruct (decode_failure_drops_value
              (transport := canned_server "<html>") (tags := example_tags)
              (decode_list := failing_decoder WorkerListResponse_zero
                                (errors_New "invalid character"))
              (decode_route := failing_decoder WorkerRouteResponse_zero
                                 (errors_New "invalid character"))
              (decode_routes :=
                 failing_decoder
                   (mkWorkerRoutesResponse ok_Response [mkWorkerRoute "e7a5" "p" true ""])
                   (errors_New "invalid character"))
              (mkAPI "") [] "<html>" _ _ _ (errors_New "invalid character")
              (λ _, eq_refl) eq_refl eq_refl eq_refl)
    as (_ & _ & _ & _ & Hroutes).
  exact (Hroutes "foo").
Defined.

Lemma ListWorkerScripts_lists_witness :
  OrganizationID (mkAPI "foo") ≠ ""
  ∧ (ListWorkerScripts (transport := canned_server "{}") (tags := example_tags)
       (decode_list := canned_decoder WorkerListResponse_zero) (mkAPI "foo") []).2
    = [mkRequest "GET" "/accounts/foo/workers/scripts" NoParams []].
Proof.
  assert (OrganizationID (mkAPI "foo") ≠ "") as Horg by discriminate.
  split; [exact Horg|].
  exact (proj1 (ListWorkerScripts_lists
                  (transport := canned_server "{}") (tags := example_tags)
                  (decode_list := canned_decoder WorkerListResponse_zero)
                  (mkAPI "foo") [] Horg)).
Defined.

Lemma single_script_ignores_account_witness :
  ScriptName (mkWorkerRequestParams "foo" "") = ""
  ∧ UploadWorker (transport := canned_server "{}") (tags := example_tags)
      (decode_script := canned_decoder WorkerScriptResponse_zero)
      (mkAPI "foo") (mkWorkerRequestParams "foo" "") "S" []
    = UploadWorker (transport := canned_server "{}") (tags := example_tags)
        (decode_script := canned_decoder WorkerScriptResponse_zero)
        (mkAPI "") (mkWorkerRequestParams "foo" "") "S" [].
Proof.
  split; [reflexivity|].
  destruct (proj1 (single_script_ignores_account
                     (transport := canned_server "{}") (tags := example_tags)
                     (marshal := compact_Marshal)
                     (decode_script := canned_decoder WorkerScriptResponse_zero)
                     (decode_route := canned_decoder WorkerRouteResponse_zero)
                     (mkAPI "foo") (mkAPI "") [])
                  (mkWorkerRequestParams "foo" "") eq_refl)
    as (_ & _ & Hupload & _).
  exact (Hupload "S").
Defined.
